(** * homework.py: a polling bot that relays homework review statuses

    The program is one Python module: an HTTP GET against the review API,
    validation of the decoded JSON, formatting of one homework record, a
    Telegram send, and the [while True] loop of [main] around them.

    The embedding keeps the module's shape.  JSON-decoded Python objects are
    the type [value]; exceptions are explicit results; the logger, the HTTP
    client, the Telegram client, the clock and [time.sleep] are calls into an
    outside world whose answers are given by oracles indexed by call count,
    and every such call is recorded in a chronological trace. *)

From Stdlib Require Import ZArith String Ascii List Bool Lia DecimalString.
From stdpp Require Import base option list strings gmap.

Local Open Scope Z_scope.
Local Open Scope string_scope.
#[local] Set Warnings "-register-all".

(** ** Python objects produced by [json.loads]

    JSON reals are not modelled: no function of the module computes with
    them.  A decoded object keeps the insertion order of its keys. *)

Inductive value : Type :=
  | VNone
  | VBool (b : bool)
  | VInt (n : Z)
  | VStr (s : string)
  | VList (l : list value)
  | VDict (d : list (string * value)).

Inductive pytype : Type := NoneType | bool_t | int_t | str_t | list_t | dict_t.

Definition type_of (v : value) : pytype :=
  match v with
  | VNone => NoneType
  | VBool _ => bool_t
  | VInt _ => int_t
  | VStr _ => str_t
  | VList _ => list_t
  | VDict _ => dict_t
  end.

(** [bool(v)]. *)
Definition truthy (v : value) : bool :=
  match v with
  | VNone => false
  | VBool b => b
  | VInt n => negb (n =? 0)%Z
  | VStr s => negb (String.eqb s EmptyString)
  | VList l => negb (Nat.eqb (length l) 0)
  | VDict d => negb (Nat.eqb (length d) 0)
  end.

(** [key in d] and [d.get(key)] for a decoded JSON object. *)
Fixpoint dict_get (key : string) (d : list (string * value)) : option value :=
  match d with
  | [] => None
  | (k, x) :: rest => if String.eqb key k then Some x else dict_get key rest
  end.

Definition dict_has (key : string) (d : list (string * value)) : bool :=
  match dict_get key d with Some _ => true | None => false end.

(** [v == w].  [bool] is a subclass of [int], so [True == 1]; objects compare
    as mappings, whatever the order of their keys. *)
Fixpoint py_eq (v w : value) {struct v} : bool :=
  match v, w with
  | VNone, VNone => true
  | VBool a, VBool b => Bool.eqb a b
  | VBool a, VInt n => (Z.b2z a =? n)%Z
  | VInt n, VBool a => (n =? Z.b2z a)%Z
  | VInt m, VInt n => (m =? n)%Z
  | VStr s, VStr t => String.eqb s t
  | VList l, VList l' =>
      (fix items (l l' : list value) : bool :=
         match l, l' with
         | [], [] => true
         | x :: xs, y :: ys => py_eq x y && items xs ys
         | _, _ => false
         end) l l'
  | VDict d, VDict d' =>
      Nat.eqb (length d) (length d') &&
      (fix entries (d : list (string * value)) : bool :=
         match d with
         | [] => true
         | (k, x) :: rest =>
             match dict_get k d' with
             | Some y => py_eq x y
             | None => false
             end && entries rest
         end) d
  | _, _ => false
  end.

(** A decoded object has each key once ([json.loads] keeps the last of
    duplicated keys). *)
Fixpoint wf_value (v : value) : Prop :=
  match v with
  | VList l => (fix all (l : list value) : Prop :=
                  match l with [] => True | x :: xs => wf_value x /\ all xs end) l
  | VDict d => NoDup (map fst d) /\
               (fix all (d : list (string * value)) : Prop :=
                  match d with [] => True | (_, x) :: r => wf_value x /\ all r end) d
  | _ => True
  end.

(** [str(n)] for an [int]. *)
Definition str_int (n : Z) : string := NilZero.string_of_int (Z.to_int n).

(** The double quote character, and a string between double quotes. *)
Definition dq : string := String (ascii_of_nat 34) EmptyString.
Definition quoted (s : string) : string := dq +:+ s +:+ dq.

(** [needle in hay] for two [str]. *)
Definition is_substring (needle hay : string) : bool :=
  match index 0 needle hay with Some _ => true | None => false end.

(** ** Exceptions *)

Inductive exn_class : Type :=
  | SystemExit | KeyboardInterrupt
  | Exception | HTTPError | ConnectionError | JSONDecodeError
  | KeyError | TypeError | IndexError | UnboundLocalError
  | TelegramError | NetworkError.

(** [issubclass(c, Exception)]: what [except Exception] catches. *)
Definition is_Exception (c : exn_class) : bool :=
  match c with
  | SystemExit | KeyboardInterrupt => false
  | _ => true
  end.

(** [issubclass(c, TelegramError)]: what [except TelegramError] catches. *)
Definition is_TelegramError (c : exn_class) : bool :=
  match c with
  | TelegramError | NetworkError => true
  | _ => false
  end.

(** Errors raised by the interpreter itself rather than by a [raise]. *)
Inductive fault : Type :=
  | Unbound (var : string)          (* UnboundLocalError: local read before assignment *)
  | MissingKey (key : string)       (* KeyError: d[key] on a dict without key *)
  | OutOfRange                      (* IndexError: l[0] on an empty list *)
  | NotSubscriptable (t : pytype)   (* TypeError: v[key] on None, bool, int *)
  | IndexNotInt (t : pytype)        (* TypeError: v[key], key a str, on list or str *)
  | NotIterable (t : pytype)        (* TypeError: key in v on None, bool, int *)
  | Unhashable (t : pytype).        (* TypeError: list or dict looked up in a dict *)

Inductive exn : Type :=
  | Exc (c : exn_class) (arg : string)   (* C(arg), from a raise or from a library *)
  | Fault (f : fault).

Definition class_of (e : exn) : exn_class :=
  match e with
  | Exc c _ => c
  | Fault (Unbound _) => UnboundLocalError
  | Fault (MissingKey _) => KeyError
  | Fault OutOfRange => IndexError
  | Fault _ => TypeError
  end.

Inductive result (A : Type) : Type :=
  | Ret (a : A)
  | Raise (e : exn).
Arguments Ret {A} a.
Arguments Raise {A} e.

(** ** The outside world *)

Inductive level : Type := DEBUG | INFO | ERROR | CRITICAL.

Inductive event : Type :=
  | Log (lvl : level) (msg : string)
  | Get (url authorization : string) (from_date : Z)     (* requests.get *)
  | SendMessage (chat_id : option string) (text : string) (* bot.send_message *)
  | Sleep (seconds : Z).                                  (* time.sleep *)

(** The texts handed to [bot.send_message], oldest first. *)
Fixpoint notifications (tr : list event) : list string :=
  match tr with
  | [] => []
  | SendMessage _ text :: rest => text :: notifications rest
  | _ :: rest => notifications rest
  end.

(** What the module reads of a [requests.Response]. *)
Record Response : Type := {
  status_code : Z;
  json : result value  (* response.json(): raises when the body is not JSON *)
}.

(** [bool(response)] is [response.ok] in requests: false exactly for the
    status codes on which [raise_for_status] raises. *)
Definition Response_bool (r : Response) : bool :=
  negb ((400 <=? status_code r)%Z && (status_code r <? 600)%Z).

(** The answers of the world, by call count. *)
Record World : Type := {
  telegram_Bot : string -> result unit;  (* telegram.Bot(token=...), token a str *)
  time_time : nat -> Z;                  (* int(time.time()) *)
  requests_get : nat -> result Response; (* requests.get(...) *)
  bot_send : nat -> result unit          (* bot.send_message(...) *)
}.

Record State : Type := {
  clock_reads : nat;
  http_calls : nat;
  bot_calls : nat;
  trace : list event
}.

Definition M (A : Type) : Type := State -> State * result A.

Definition ret {A} (a : A) : M A := fun s => (s, Ret a).
Definition raise {A} (e : exn) : M A := fun s => (s, Raise e).
Definition bind {A B} (c : M A) (k : A -> M B) : M B :=
  fun s => match c s with
           | (s', Ret a) => k a s'
           | (s', Raise e) => (s', Raise e)
           end.
Definition lift {A} (r : result A) : M A := fun s => (s, r).

Notation "x <- c ;; k" := (bind c (fun x => k))
  (at level 100, c at next level, right associativity).
Notation "c ;; k" := (bind c (fun _ => k))
  (at level 100, right associativity).

Definition emit (e : event) (s : State) : State :=
  {| clock_reads := clock_reads s; http_calls := http_calls s;
     bot_calls := bot_calls s; trace := trace s ++ [e] |}.

(** The state after the events [es], in this order. *)
Definition emits (es : list event) (s : State) : State :=
  {| clock_reads := clock_reads s; http_calls := http_calls s;
     bot_calls := bot_calls s; trace := trace s ++ es |}.

Definition log (lvl : level) (msg : string) : M unit :=
  fun s => (emit (Log lvl msg) s, Ret tt).

Definition sleep (seconds : Z) : M unit :=
  fun s => (emit (Sleep seconds) s, Ret tt).

(** [try: body / except <catches> as e: handler e / else: orelse a]. *)
Definition try_except {A B} (body : M A) (catches : exn_class -> bool)
    (handler : exn -> M B) (orelse : A -> M B) : M B :=
  fun s => match body s with
           | (s', Ret a) => orelse a s'
           | (s', Raise e) =>
               if catches (class_of e) then handler e s' else (s', Raise e)
           end.

Fixpoint for_each {A} (l : list A) (body : A -> M unit) : M unit :=
  match l with
  | [] => ret tt
  | x :: rest => body x ;; for_each rest body
  end.

(** ** Module constants *)

Definition RETRY_TIME : Z := 600.
Definition ENDPOINT : string :=
  "https://practicum.yandex.ru/api/user_api/homework_statuses/".

Definition HOMEWORK_STATUSES : gmap string string :=
  {[ "approved" := "Работа проверена: ревьюеру всё понравилось. Ура!";
     "reviewing" := "Работа взята на проверку ревьюером.";
     "rejected" := "Работа проверена: у ревьюера есть замечания." ]}.

(** [f'{t}'] for a value of [os.getenv]. *)
Definition str_env (t : option string) : string :=
  match t with Some s => s | None => "None" end.

Definition env_truthy (t : option string) : bool :=
  match t with
  | Some s => negb (String.eqb s EmptyString)
  | None => false
  end.

(** [l[0]] and [v[key]] for a [str] key. *)
Definition first_item (l : list value) : result value :=
  match l with
  | x :: _ => Ret x
  | [] => Raise (Fault OutOfRange)
  end.

Definition getitem (v : value) (key : string) : result value :=
  match v with
  | VDict d =>
      match dict_get key d with
      | Some x => Ret x
      | None => Raise (Fault (MissingKey key))
      end
  | VList _ | VStr _ => Raise (Fault (IndexNotInt (type_of v)))
  | VNone | VBool _ | VInt _ => Raise (Fault (NotSubscriptable (type_of v)))
  end.

(** [key in v] for a [str] key: a key of a dict, an item of a list, a
    substring of a str. *)
Definition contains (v : value) (key : string) : result bool :=
  match v with
  | VDict d => Ret (dict_has key d)
  | VList l => Ret (existsb (py_eq (VStr key)) l)
  | VStr s => Ret (is_substring key s)
  | VNone | VBool _ | VInt _ => Raise (Fault (NotIterable (type_of v)))
  end.

(** [v in HOMEWORK_STATUSES] and [HOMEWORK_STATUSES.get(v)]: the keys are
    [str], a list or a dict cannot be hashed. *)
Definition in_HOMEWORK_STATUSES (v : value) : result bool :=
  match v with
  | VStr s => Ret (bool_decide (is_Some (HOMEWORK_STATUSES !! s)))
  | VList _ | VDict _ => Raise (Fault (Unhashable (type_of v)))
  | VNone | VBool _ | VInt _ => Ret false
  end.

Definition HOMEWORK_STATUSES_get (v : value) : value :=
  match v with
  | VStr s => from_option VStr VNone (HOMEWORK_STATUSES !! s)
  | _ => VNone
  end.

(** Reading a local variable that may not have been assigned. *)
Definition load {A} (var : string) (x : option A) : M A :=
  match x with
  | Some a => ret a
  | None => raise (Fault (Unbound var))
  end.

(** ** A sample interpreter and sample worlds *)

(** [repr] of a str without quote, backslash or unprintable character. *)
Definition repr_plain (s : string) : string := "'" +:+ s +:+ "'".

Definition type_name (t : pytype) : string :=
  match t with
  | NoneType => "NoneType"
  | bool_t => "bool"
  | int_t => "int"
  | str_t => "str"
  | list_t => "list"
  | dict_t => "dict"
  end.

(** The interpreter's errors in the wording of CPython 3.7 to 3.10. *)
Definition fault_text_cpython (f : fault) : string :=
  match f with
  | Unbound var => "local variable '" +:+ var +:+ "' referenced before assignment"
  | MissingKey key => repr_plain key
  | OutOfRange => "list index out of range"
  | NotSubscriptable t => "'" +:+ type_name t +:+ "' object is not subscriptable"
  | IndexNotInt list_t => "list indices must be integers or slices, not str"
  | IndexNotInt _ => "string indices must be integers"
  | NotIterable t => "argument of type '" +:+ type_name t +:+ "' is not iterable"
  | Unhashable t => "unhashable type: '" +:+ type_name t +:+ "'"
  end.

Definition start : State :=
  {| clock_reads := 0; http_calls := 0; bot_calls := 0; trace := [] |}.

Definition practicum_token : option string := Some "y0_AgAAAA".
Definition telegram_token : option string := Some "5000000000:AAF".
Definition telegram_chat_id : option string := Some "100200300".

(** A 200 answer with the given homeworks, and an answer with the given
    status whose body is not JSON (an empty body, for instance). *)
Definition answer (homeworks : list value) : result Response :=
  Ret {| status_code := 200;
         json := Ret (VDict [("homeworks", VList homeworks);
                             ("current_date", VInt 1660000000)]) |}.

Definition not_json (code : Z) : result Response :=
  Ret {| status_code := code;
         json := Raise (Exc JSONDecodeError
                          "Expecting value: line 1 column 1 (char 0)") |}.

Definition homework_X (status : string) : value :=
  VDict [("homework_name", VStr "X"); ("status", VStr status)].

(** A world given by its successive HTTP answers (the last one repeats), a
    clock that starts at [1000] and a Telegram client that always delivers. *)
Definition world_of (answers : list (result Response)) (last : result Response)
    (send : nat -> result unit) : World :=
  {| telegram_Bot := fun _ => Ret tt;
     time_time := fun n => 1000 + Z.of_nat n;
     requests_get := fun n => nth n answers last;
     bot_send := send |}.

Definition delivers : nat -> result unit := fun _ => Ret tt.

Definition approved_X : string :=
  "Изменился статус проверки работы " +:+ quoted "X"
  +:+ ". Работа проверена: ревьюеру всё понравилось. Ура!".

(** ** The module *)

Section Module_.

(** The module is run by an interpreter: [repr] of a [str] depends on the
    Unicode tables, and the wording of the interpreter's own errors on its
    version. *)
Variable repr_str : string -> string.
Variable fault_text : fault -> string.

(** The three values read by [os.getenv] when the module is loaded. *)
Variable PRACTICUM_TOKEN TELEGRAM_TOKEN TELEGRAM_CHAT_ID : option string.

Variable world : World.

(** [int(time.time())]. *)
Definition now : M Z :=
  fun s => ({| clock_reads := S (clock_reads s); http_calls := http_calls s;
               bot_calls := bot_calls s; trace := trace s |},
            Ret (time_time world (clock_reads s))).

(** [requests.get(url=..., headers={'Authorization': ...}, params={'from_date': ...})]. *)
Definition requests_get_ (url authorization : string) (from_date : Z) : M Response :=
  fun s => ({| clock_reads := clock_reads s; http_calls := S (http_calls s);
               bot_calls := bot_calls s;
               trace := trace s ++ [Get url authorization from_date] |},
            requests_get world (http_calls s)).

(** [bot.send_message(chat_id, text)]. *)
Definition bot_send_message (chat_id : option string) (text : string) : M unit :=
  fun s => ({| clock_reads := clock_reads s; http_calls := http_calls s;
               bot_calls := S (bot_calls s);
               trace := trace s ++ [SendMessage chat_id text] |},
            bot_send world (bot_calls s)).

(** [repr(v)] and [str(v)]. *)
Fixpoint py_repr (v : value) : string :=
  match v with
  | VNone => "None"
  | VBool true => "True"
  | VBool false => "False"
  | VInt n => str_int n
  | VStr s => repr_str s
  | VList l => "[" +:+ String.concat ", " (map py_repr l) +:+ "]"
  | VDict d =>
      "{" +:+ String.concat ", "
                (map (fun kv => repr_str (fst kv) +:+ ": " +:+ py_repr (snd kv)) d)
          +:+ "}"
  end.

Definition py_str (v : value) : string :=
  match v with
  | VStr s => s
  | _ => py_repr v
  end.

(** [str(e)]: [KeyError] shows the repr of its argument. *)
Definition str_exn (e : exn) : string :=
  match e with
  | Exc KeyError arg => repr_str arg
  | Exc _ arg => arg
  | Fault (MissingKey key) => repr_str key
  | Fault f => fault_text f
  end.

(** *** send_message *)
Definition send_message (message : string) : M unit :=
  try_except (bot_send_message TELEGRAM_CHAT_ID message)
    is_TelegramError
    (fun error =>
       log ERROR ("Бот не смог отправить сообщение " +:+ message
                  +:+ ". Ошибка " +:+ str_exn error))
    (fun _ => log INFO ("Бот отправил сообщение " +:+ quoted message)).

(** *** get_api_answer *)
Definition get_api_answer (current_timestamp : Z) : M value :=
  timestamp <- (if (current_timestamp =? 0)%Z then now else ret current_timestamp) ;;
  response <- requests_get_ ENDPOINT ("OAuth " +:+ str_env PRACTICUM_TOKEN) timestamp ;;
  if negb (status_code response =? 200)%Z then
    let message := "Код ответа API: " +:+ str_int (status_code response) in
    log ERROR message ;;
    raise (Exc HTTPError message)
  else if negb (Response_bool response) then
    let message := "Получен пусто ответ при обращении к API" in
    log ERROR message ;;
    raise (Exc Exception message)
  else
    lift (json response).

(** *** check_response *)
Definition check_response (response : value) : M (list value) :=
  if negb (truthy response) then
    let message := "Получен пустой ответ при обращении к API" in
    log ERROR message ;;
    raise (Exc Exception message)
  else
    match response with
    | VDict d =>
        for_each ["homeworks"; "current_date"] (fun key =>
          if negb (dict_has key d) then
            let message := "Отсутствует ключ " +:+ quoted key +:+ " в ответе API" in
            log ERROR message ;;
            raise (Exc KeyError message)
          else ret tt) ;;
        homeworks <- lift (getitem response "homeworks") ;;
        match homeworks with
        | VList l => ret l
        | _ =>
            let message :=
              "Объект по ключу " +:+ quoted "homeworks" +:+ " не является списком" in
            log ERROR message ;;
            raise (Exc TypeError message)
        end
    | _ =>
        let message := "Получен некорретный ответ при обрщаении к API" in
        log ERROR message ;;
        raise (Exc TypeError message)
    end.

(** *** parse_status

    [homework_name] and [verdict] are locals assigned on one branch only:
    [None] stands for a local that was never assigned. *)
Definition parse_status (homework : value) : M string :=
  for_each ["homework_name"; "status"] (fun key =>
    present <- lift (contains homework key) ;;
    if negb present then
      let message :=
        "Отсутствует ключ " +:+ quoted key +:+ " в объекте " +:+ quoted "homework" in
      log ERROR message ;;
      raise (Exc KeyError message)
    else ret tt) ;;
  name <- lift (getitem homework "homework_name") ;;
  homework_name <-
    (if negb (truthy name) then
       log ERROR "Отсуствует имя проекта" ;; ret None
     else ret (Some name)) ;;
  status <- lift (getitem homework "status") ;;
  known <- lift (in_HOMEWORK_STATUSES status) ;;
  verdict <-
    (if negb known then
       log ERROR "Неизвестный статус проекта" ;; ret None
     else
       let homework_status := status in
       ret (Some (HOMEWORK_STATUSES_get homework_status))) ;;
  homework_name <- load "homework_name" homework_name ;;
  verdict <- load "verdict" verdict ;;
  ret ("Изменился статус проверки работы " +:+ quoted (py_str homework_name)
       +:+ ". " +:+ py_str verdict).

(** *** check_tokens *)
Definition check_tokens : M bool :=
  let result :=
    forallb env_truthy [PRACTICUM_TOKEN; TELEGRAM_TOKEN; TELEGRAM_CHAT_ID] in
  (if negb result then
     log CRITICAL "Отсутствует обязательная переменная окружения"
   else ret tt) ;;
  ret result.

(** [sys.exit()]. *)
Definition sys_exit {A} : M A := raise (Exc SystemExit EmptyString).

(** *** main

    The locals of [main] that live across iterations; [status] is not
    assigned before the loop. *)
Record Locals : Type := {
  current_timestamp : Z;
  status : option value
}.

(** Lines 161-169, the body of [try]. *)
Definition try_body (vars : Locals) : M value :=
  ok <- check_tokens ;;
  (if negb ok then sys_exit else ret tt) ;;
  response <- get_api_answer (current_timestamp vars) ;;
  homework <- check_response response ;;
  status <- (if truthy (VList homework) then
               first <- lift (first_item homework) ;;
               lift (getitem first "status")
             else ret VNone) ;;
  sleep RETRY_TIME ;;
  ret status.

(** Lines 172-175, the body of [except Exception as error]. *)
Definition except_body (vars : Locals) (error : exn) : M Locals :=
  let message := "Сбой в работе программы: " +:+ str_exn error in
  log ERROR message ;;
  send_message message ;;
  sleep RETRY_TIME ;;
  ret vars.

(** Lines 180-190: the comparison of the two statuses and the notification. *)
Definition compare_and_notify (status : option value) (homework : list value) : M unit :=
  new_status <- (if truthy (VList homework) then
                   first <- lift (first_item homework) ;;
                   lift (getitem first "status")
                 else ret VNone) ;;
  changed <- (if truthy new_status then
                status <- load "status" status ;;
                ret (negb (py_eq status new_status))
              else ret false) ;;
  if changed then
    first <- lift (first_item homework) ;;
    message <- parse_status first ;;
    send_message message
  else
    log DEBUG "Статус работы не изменился".

(** Lines 177-190, the body of [else]. *)
Definition else_body (vars : Locals) : M Locals :=
  current_timestamp <- now ;;
  let vars := {| current_timestamp := current_timestamp; status := status vars |} in
  response <- get_api_answer current_timestamp ;;
  homework <- check_response response ;;
  compare_and_notify (status vars) homework ;;
  ret vars.

(** One iteration of [while True]. *)
Definition iteration (vars : Locals) : M Locals :=
  try_except (try_body vars)
    is_Exception
    (except_body vars)
    (fun status =>
       else_body {| current_timestamp := current_timestamp vars;
                    status := Some status |}).

(** The first [n] iterations of the loop: [Ret] when all of them completed,
    [Raise] when an exception left the loop and ended the process. *)
Fixpoint loop (n : nat) (vars : Locals) : M Locals :=
  match n with
  | O => ret vars
  | S n => vars <- iteration vars ;; loop n vars
  end.

(** [telegram.Bot(token=...)] builds the client object that [send_message]
    is given.  The constructor validates the token by going through its
    characters: None, the value of a variable that is not set, cannot be
    iterated, and the interpreter raises TypeError; a string is accepted or
    refused by the library. *)
Definition Bot (token : option string) : M unit :=
  match token with
  | None => raise (Exc TypeError "'NoneType' object is not iterable")
  | Some t => lift (telegram_Bot world t)
  end.

(** [main], cut after [n] iterations. *)
Definition main (n : nat) : M Locals :=
  Bot TELEGRAM_TOKEN ;;
  current_timestamp <- now ;;
  loop n {| current_timestamp := current_timestamp; status := None |}.

(** *** Notions used in the statements *)

(** The status that lines 165-168 and 180-183 read off a list of homeworks. *)
Definition status_of (homework : list value) : result value :=
  match homework with
  | [] => Ret VNone
  | first :: _ => getitem first "status"
  end.

(** An answer that [get_api_answer] and [check_response] accept, and the list
    of homeworks they yield. *)
Definition answers (response : Response) (homework : list value) : Prop :=
  status_code response = 200 /\
  exists d, json response = Ret (VDict d) /\
            dict_get "homeworks" d = Some (VList homework) /\
            dict_has "current_date" d = true.

Definition tokens_present : Prop :=
  env_truthy PRACTICUM_TOKEN = true /\ env_truthy TELEGRAM_TOKEN = true
  /\ env_truthy TELEGRAM_CHAT_ID = true.

(** The state in which [get_api_answer t] leaves [st] once the request has
    been answered. *)
Definition fetched (t : Z) (st : State) : State :=
  {| clock_reads := if (t =? 0)%Z then S (clock_reads st) else clock_reads st;
     http_calls := S (http_calls st);
     bot_calls := bot_calls st;
     trace := trace st ++
              [Get ENDPOINT ("OAuth " +:+ str_env PRACTICUM_TOKEN)
                   (if (t =? 0)%Z then time_time world (clock_reads st) else t)] |}.

(** The state after one reading of the clock. *)
Definition ticked (st : State) : State :=
  {| clock_reads := S (clock_reads st); http_calls := http_calls st;
     bot_calls := bot_calls st; trace := trace st |}.

(** The Telegram client reports a failed send with TelegramError or one of
    its subclasses. *)
Definition delivered_or_TelegramError (r : result unit) : Prop :=
  match r with
  | Ret _ => True
  | Raise e => is_TelegramError (class_of e) = true
  end.

(** A log record, as opposed to a call that leaves the process. *)
Definition is_Log (e : event) : Prop :=
  match e with
  | Log _ _ => True
  | _ => False
  end.

(** The durations handed to [time.sleep], oldest first. *)
Fixpoint sleeps (tr : list event) : list Z :=
  match tr with
  | [] => []
  | Sleep seconds :: rest => seconds :: sleeps rest
  | _ :: rest => sleeps rest
  end.

(** [c] relates the state it starts in to the state it ends in by [R],
    whether it returns or raises. *)
Definition keeps (R : State -> State -> Prop) {A} (c : M A) : Prop :=
  forall st st' r, c st = (st', r) -> R st st'.

(** Nothing was requested, sent or slept through between two states. *)
Definition quiet (st st' : State) : Prop :=
  sleeps (trace st') = sleeps (trace st) /\
  notifications (trace st') = notifications (trace st) /\
  http_calls st' = http_calls st /\
  bot_calls st' = bot_calls st.

(** No request was made and no sleep taken; messages may have been sent. *)
Definition offline (st st' : State) : Prop :=
  sleeps (trace st') = sleeps (trace st) /\
  http_calls st' = http_calls st.

(** Each of the three environment values is a non-empty string. *)
Definition is_set (t : option string) : Prop :=
  exists s, t = Some s /\ s <> EmptyString.

(** * Properties *)

(** ** Equality of decoded objects *)

Section value_induction.
Variable P : value -> Prop.
Hypothesis HNone : P VNone.
Hypothesis HBool : forall b, P (VBool b).
Hypothesis HInt : forall n, P (VInt n).
Hypothesis HStr : forall s, P (VStr s).
Hypothesis HList : forall l, Forall P l -> P (VList l).
Hypothesis HDict : forall d, Forall (fun kv => P (snd kv)) d -> P (VDict d).

Fixpoint value_ind' (v : value) : P v :=
  match v with
  | VNone => HNone
  | VBool b => HBool b
  | VInt n => HInt n
  | VStr s => HStr s
  | VList l =>
      HList l ((fix go (l : list value) : Forall P l :=
                  match l with
                  | [] => Forall_nil_2 P
                  | x :: xs => Forall_cons_2 P x xs (value_ind' x) (go xs)
                  end) l)
  | VDict d =>
      HDict d ((fix go (d : list (string * value)) : Forall (fun kv => P (snd kv)) d :=
                  match d with
                  | [] => Forall_nil_2 _
                  | kv :: r => Forall_cons_2 _ kv r (value_ind' (snd kv)) (go r)
                  end) d)
  end.
End value_induction.

Lemma dict_get_NoDup (d : list (string * value)) (k : string) (x : value) :
  NoDup (map fst d) -> In (k, x) d -> dict_get k d = Some x.
Proof.
  induction d as [|[k' x'] d IH]; simpl; intros Hnd Hin; [contradiction|].
  apply NoDup_cons in Hnd as [Hk' Hnd].
  destruct Hin as [Heq|Hin].
  - inversion Heq; subst. now rewrite String.eqb_refl.
  - destruct (String.eqb_spec k k') as [->|_]; [|auto].
    exfalso. apply Hk'. apply list_elem_of_In.
    change k' with (fst (k', x)). now apply in_map.
Qed.

Lemma py_eq_refl (v : value) : wf_value v -> py_eq v v = true.
Proof.
  induction v as [| b | n | s | l IH | d IH] using value_ind'; simpl; intros Hwf; auto.
  - now destruct b.
  - apply Z.eqb_refl.
  - apply String.eqb_refl.
  - induction IH as [|x xs Hx _ IHxs]; [reflexivity|].
    destruct Hwf as [Hwx Hwxs]. rewrite (Hx Hwx). simpl. auto.
  - destruct Hwf as [Hnd Hall]. rewrite Nat.eqb_refl. simpl.
    assert (Hsub : forall k x, In (k, x) d -> dict_get k d = Some x)
      by (intros; now apply dict_get_NoDup).
    clear Hnd. revert Hsub. generalize d at 2 3. intros d0 Hsub.
    induction IH as [|[k x] r Hx _ IHr]; [reflexivity|].
    destruct Hall as [Hwx Hall].
    rewrite (Hsub k x) by now left. simpl in Hx. rewrite (Hx Hwx). simpl.
    apply IHr; auto. intros; apply Hsub; now right.
Qed.

(** ** Traces *)

Lemma emit_emits (e : event) (s : State) : emit e s = emits [e] s.
Proof. reflexivity. Qed.

Lemma emits_emits (es es' : list event) (s : State) :
  emits es' (emits es s) = emits (es ++ es') s.
Proof. unfold emits; simpl. now rewrite app_assoc. Qed.

Lemma emits_nil (s : State) : emits [] s = s.
Proof. destruct s; unfold emits; simpl. now rewrite app_nil_r. Qed.

Ltac run_M :=
  unfold for_each, bind, ret, raise, lift, log, sleep, load, sys_exit; simpl.

Ltac tidy := rewrite ?emit_emits, ?emits_emits, ?emits_nil; simpl.

(** ** The formatter: parse_status *)

Lemma truthy_str (s : string) : truthy (VStr s) = true <-> s <> EmptyString.
Proof.
  simpl. destruct (String.eqb_spec s EmptyString); simpl; split; congruence.
Qed.

(** C4. For every record with a non-empty string under [homework_name] and a
    key of [HOMEWORK_STATUSES] under [status], [parse_status] logs nothing and
    returns the announcement of the change, the name between double quotes,
    followed by the verdict that the catalogue gives for the status. *)
Theorem parse_status_well_formed
    (d : list (string * value)) (name s verdict : string) (st : State) :
  dict_get "homework_name" d = Some (VStr name) ->
  name <> EmptyString ->
  dict_get "status" d = Some (VStr s) ->
  HOMEWORK_STATUSES !! s = Some verdict ->
  parse_status (VDict d) st =
    (st, Ret ("Изменился статус проверки работы " +:+ quoted name +:+ ". " +:+ verdict)).
Proof.
  intros Hname Hne Hstatus Hverdict.
  apply truthy_str in Hne.
  unfold parse_status, contains, dict_has, getitem. run_M.
  rewrite Hname, Hstatus. simpl in Hne |- *. rewrite Hne. simpl.
  rewrite Hverdict. reflexivity.
Qed.

(** C9. For every record that has both keys and a hashable status (a string,
    as the API sends it, or None, a boolean, an integer): when the name is
    empty or the status is no key of [HOMEWORK_STATUSES], [parse_status] logs
    an error for each of the two defects and then raises UnboundLocalError on
    the first local it reads that was never assigned; it returns no message. *)
Theorem parse_status_unassigned
    (d : list (string * value)) (name s : value) (known : bool) (st : State) :
  dict_get "homework_name" d = Some name ->
  dict_get "status" d = Some s ->
  in_HOMEWORK_STATUSES s = Ret known ->
  truthy name = false \/ known = false ->
  parse_status (VDict d) st =
    (emits ((if truthy name then [] else [Log ERROR "Отсуствует имя проекта"])
            ++ (if known then [] else [Log ERROR "Неизвестный статус проекта"])) st,
     Raise (Fault (Unbound (if truthy name then "verdict" else "homework_name")))).
Proof.
  intros Hname Hstatus Hknown Hbad.
  unfold parse_status, contains, dict_has, getitem. run_M.
  rewrite Hname, Hstatus. simpl. rewrite Hknown.
  destruct (truthy name), known; simpl;
    try (destruct Hbad; discriminate); tidy; reflexivity.
Qed.

(** ** The validator: check_response *)

(** C5, as the code has it.  For every non-empty object that lacks
    [homeworks] or [current_date], [check_response] logs and raises KeyError
    with a message that names the first absent key, [homeworks] before
    [current_date].  (The empty object is refused earlier, as an empty
    answer.) *)
Theorem check_response_missing_key (d : list (string * value)) (st : State) :
  d <> [] ->
  dict_has "homeworks" d = false \/ dict_has "current_date" d = false ->
  let key := if dict_has "homeworks" d then "current_date" else "homeworks" in
  let message := "Отсутствует ключ " +:+ quoted key +:+ " в ответе API" in
  check_response (VDict d) st =
    (emits [Log ERROR message] st, Raise (Exc KeyError message)).
Proof.
  intros Hne Hmiss. unfold check_response.
  destruct d as [|kv d]; [congruence|]. cbn [truthy length Nat.eqb negb]. run_M.
  destruct (dict_has "homeworks" (kv :: d)); [|reflexivity].
  destruct Hmiss as [Hmiss|Hmiss]; [discriminate|].
  cbn [negb]. rewrite Hmiss. reflexivity.
Qed.

(** ** The API client: get_api_answer *)

(** A 200 answer is handed to [response.json()] as it is: with that status
    [bool(response)] is true, so the branch for an empty answer is not taken. *)
Lemma get_api_answer_200 (current_timestamp : Z) (st : State) (response : Response) :
  requests_get world (http_calls st) = Ret response ->
  status_code response = 200 ->
  exists st' from_date,
    get_api_answer current_timestamp st = (st', json response) /\
    trace st' =
      (trace st ++ [Get ENDPOINT ("OAuth " +:+ str_env PRACTICUM_TOKEN) from_date])%list.
Proof.
  intros Hget Hcode. unfold get_api_answer, requests_get_, now, Response_bool.
  destruct (current_timestamp =? 0)%Z; run_M; rewrite Hget, Hcode; simpl;
    eexists _, _; split; reflexivity.
Qed.

(** C6. Whenever the answer carries a status other than 200, [get_api_answer]
    raises HTTPError; the message ends with the decimal status code, and the
    same message is logged as an error, the last event before the raise. *)
Theorem get_api_answer_not_200
    (current_timestamp : Z) (st : State) (response : Response) :
  requests_get world (http_calls st) = Ret response ->
  status_code response <> 200 ->
  let message := "Код ответа API: " +:+ str_int (status_code response) in
  exists st' from_date,
    get_api_answer current_timestamp st = (st', Raise (Exc HTTPError message)) /\
    trace st' =
      (trace st ++ [Get ENDPOINT ("OAuth " +:+ str_env PRACTICUM_TOKEN) from_date;
                    Log ERROR message])%list.
Proof.
  intros Hget Hcode message. apply Z.eqb_neq in Hcode.
  unfold get_api_answer, requests_get_, now.
  destruct (current_timestamp =? 0)%Z; run_M; rewrite Hget, Hcode; simpl;
    eexists _, _; (split; [reflexivity|]); simpl;
    now rewrite <- app_assoc.
Qed.

(** ** The notifier: send_message *)

Lemma send_message_never_raises_aux (message : string) (st : State) :
  delivered_or_TelegramError (bot_send world (bot_calls st)) ->
  exists st',
    send_message message st = (st', Ret tt) /\
    trace st' =
      (trace st ++
      [SendMessage TELEGRAM_CHAT_ID message;
       match bot_send world (bot_calls st) with
       | Ret _ => Log INFO ("Бот отправил сообщение " +:+ quoted message)
       | Raise error =>
           Log ERROR ("Бот не смог отправить сообщение " +:+ message
                      +:+ ". Ошибка " +:+ str_exn error)
       end])%list.
Proof.
  intros Hworld. unfold send_message, try_except, bot_send_message.
  destruct (bot_send world (bot_calls st)) as [[]|e]; simpl in *.
  - eexists; split; [reflexivity|]. simpl. now rewrite <- app_assoc.
  - rewrite Hworld. eexists; split; [reflexivity|]. simpl. now rewrite <- app_assoc.
Qed.

(** C8. For every message, [send_message] returns normally whether the send
    succeeded or failed with a TelegramError: after a success it logs a
    confirmation at level INFO, after a failure an error that carries the
    message and the text of the original error. *)
Theorem send_message_never_raises (message : string) (st : State) :
  delivered_or_TelegramError (bot_send world (bot_calls st)) ->
  exists st',
    send_message message st = (st', Ret tt) /\
    trace st' =
      (trace st ++
      [SendMessage TELEGRAM_CHAT_ID message;
       match bot_send world (bot_calls st) with
       | Ret _ => Log INFO ("Бот отправил сообщение " +:+ quoted message)
       | Raise error =>
           Log ERROR ("Бот не смог отправить сообщение " +:+ message
                      +:+ ". Ошибка " +:+ str_exn error)
       end])%list.
Proof.
  intros Hworld. unfold send_message, try_except, bot_send_message.
  destruct (bot_send world (bot_calls st)) as [[]|error] eqn:Hsend; simpl in *.
  - (* delivered: the else clause logs the confirmation *)
    eexists; split; [reflexivity|]. simpl. now rewrite <- app_assoc.
  - (* TelegramError: the except clause logs it and swallows it *)
    rewrite Hworld. eexists; split; [reflexivity|]. simpl. now rewrite <- app_assoc.
Qed.

(** ** The loop *)

Lemma loop_raise (n : nat) (vars : Locals) (st st' : State) (e : exn) :
  iteration vars st = (st', Raise e) ->
  loop (S n) vars st = (st', Raise e).
Proof. intros H. simpl. unfold bind. now rewrite H. Qed.

Lemma check_tokens_spec (st : State) :
  check_tokens st =
    if env_truthy PRACTICUM_TOKEN && env_truthy TELEGRAM_TOKEN
       && env_truthy TELEGRAM_CHAT_ID
    then (st, Ret true)
    else (emit (Log CRITICAL "Отсутствует обязательная переменная окружения") st,
          Ret false).
Proof.
  unfold check_tokens. simpl.
  destruct (env_truthy PRACTICUM_TOKEN), (env_truthy TELEGRAM_TOKEN),
    (env_truthy TELEGRAM_CHAT_ID); reflexivity.
Qed.

(** X24. When the client object has been built (the bot token is a string
    that the library accepts) and [PRACTICUM_TOKEN] or [TELEGRAM_CHAT_ID] is
    missing or empty, [main] logs a critical error in its first pass through
    the loop and raises SystemExit, which [except Exception] does not catch:
    the process ends, and no request has been made. *)
Theorem missing_api_token_or_chat_id_exits (n : nat) (st : State) (token : string) :
  TELEGRAM_TOKEN = Some token ->
  telegram_Bot world token = Ret tt ->
  env_truthy PRACTICUM_TOKEN = false \/ env_truthy TELEGRAM_CHAT_ID = false ->
  main (S n) st =
    (emit (Log CRITICAL "Отсутствует обязательная переменная окружения") (ticked st),
     Raise (Exc SystemExit EmptyString)).
Proof.
  intros Htoken HBot Hmiss.
  unfold main. rewrite Htoken. unfold Bot, bind at 1, lift. rewrite HBot.
  unfold bind at 1, now. apply loop_raise.
  unfold iteration, try_except, try_body, bind.
  rewrite check_tokens_spec.
  destruct Hmiss as [H|H]; rewrite H; rewrite ?andb_false_r; reflexivity.
Qed.

Lemma check_response_ok (d : list (string * value)) (homework : list value) (st : State) :
  dict_get "homeworks" d = Some (VList homework) ->
  dict_has "current_date" d = true ->
  check_response (VDict d) st = (st, Ret homework).
Proof.
  intros Hhw Hdate.
  assert (Ht : truthy (VDict d) = true) by (destruct d; [discriminate|reflexivity]).
  unfold check_response. rewrite Ht. unfold getitem, dict_has in *. run_M.
  rewrite Hhw. simpl.
  destruct (dict_get "current_date" d); [reflexivity|discriminate].
Qed.

Lemma fetch_ok {B} (k : list value -> M B) (t : Z) (st : State)
    (response : Response) (homework : list value) :
  requests_get world (http_calls st) = Ret response ->
  answers response homework ->
  (response <- get_api_answer t ;; homework <- check_response response ;; k homework) st
  = k homework (fetched t st).
Proof.
  intros Hget (Hcode & d & Hjson & Hhw & Hdate).
  unfold bind, get_api_answer, requests_get_, now, Response_bool, fetched.
  destruct (t =? 0)%Z; run_M; rewrite Hget, Hcode, Hjson; simpl;
    now rewrite (check_response_ok _ _ _ Hhw Hdate).
Qed.

Lemma first_status_run {B} (k : value -> M B) (homework : list value) (st : State) :
  (status <- (if truthy (VList homework) then
                first <- lift (first_item homework) ;;
                lift (getitem first "status")
              else ret VNone) ;;
   k status) st
  = match status_of homework with
    | Ret s => k s st
    | Raise e => (st, Raise e)
    end.
Proof.
  destruct homework as [|first rest]; [reflexivity|].
  cbn [truthy length Nat.eqb negb first_item status_of]. run_M.
  now destruct (getitem first "status").
Qed.

Lemma try_body_ok (vars : Locals) (st : State) (response : Response)
    (homework : list value) (s : value) :
  tokens_present ->
  requests_get world (http_calls st) = Ret response ->
  answers response homework ->
  status_of homework = Ret s ->
  try_body vars st =
    (emit (Sleep RETRY_TIME) (fetched (current_timestamp vars) st), Ret s).
Proof.
  intros (H1 & H2 & H3) Hget Hans Hs.
  unfold try_body. unfold bind at 1. rewrite check_tokens_spec, H1, H2, H3.
  cbn [andb negb]. unfold bind at 1. unfold ret at 1.
  rewrite (fetch_ok _ _ _ _ _ Hget Hans), first_status_run, Hs.
  reflexivity.
Qed.

Lemma wf_dict_get (d : list (string * value)) (k : string) (x : value) :
  wf_value (VDict d) -> dict_get k d = Some x -> wf_value x.
Proof.
  intros [_ Hall]. induction d as [|[k' x'] d IH]; simpl; [discriminate|].
  destruct Hall as [Hx' Hall]. destruct (String.eqb k k'); [|auto].
  intros [= <-]. exact Hx'.
Qed.

Lemma wf_status_of (homework : list value) (s : value) :
  wf_value (VList homework) -> status_of homework = Ret s -> wf_value s.
Proof.
  destruct homework as [|first rest]; simpl.
  - intros _ [= <-]. exact I.
  - intros [Hfirst _]. destruct first; simpl; try discriminate.
    destruct (dict_get "status" d) eqn:Hget; [|discriminate].
    intros [= <-]. eapply wf_dict_get; eauto.
Qed.

Lemma notifications_app (tr tr' : list event) :
  notifications (tr ++ tr') = (notifications tr ++ notifications tr')%list.
Proof.
  induction tr as [|[] tr IH]; simpl; auto. now rewrite IH.
Qed.

Lemma compare_equal (previous new_status : value) (homework : list value) (st : State) :
  status_of homework = Ret new_status ->
  py_eq previous new_status = true ->
  compare_and_notify (Some previous) homework st =
    (emit (Log DEBUG "Статус работы не изменился") st, Ret tt).
Proof.
  intros Hs Heq.
  unfold compare_and_notify. rewrite first_status_run, Hs. run_M.
  destruct (truthy new_status); simpl; [rewrite Heq|]; reflexivity.
Qed.

Lemma same_answer_cycle (vars : Locals) (st : State) (response : Response)
    (homework : list value) (s : value) :
  tokens_present ->
  requests_get world (http_calls st) = Ret response ->
  requests_get world (S (http_calls st)) = Ret response ->
  answers response homework ->
  wf_value (VList homework) ->
  status_of homework = Ret s ->
  exists st' t1 t2 t3,
    iteration vars st =
      (st', Ret {| current_timestamp := t3; status := Some s |}) /\
    trace st' =
      (trace st ++
       [Get ENDPOINT ("OAuth " +:+ str_env PRACTICUM_TOKEN) t1;
        Sleep RETRY_TIME;
        Get ENDPOINT ("OAuth " +:+ str_env PRACTICUM_TOKEN) t2;
        Log DEBUG "Статус работы не изменился"])%list /\
    bot_calls st' = bot_calls st.
Proof.
  intros Htok Hget1 Hget2 Hans Hwf Hs.
  unfold iteration, try_except.
  rewrite (try_body_ok vars st response homework s Htok Hget1 Hans Hs).
  unfold else_body. unfold bind at 1. unfold now at 1.
  erewrite fetch_ok; [| exact Hget2 | exact Hans].
  unfold bind. cbn [status]. erewrite compare_equal; [| exact Hs |].
  - eexists _, _, _, _. split; [reflexivity|]. split; [|reflexivity].
    simpl. rewrite <- !app_assoc. reflexivity.
  - apply py_eq_refl. eapply wf_status_of; eauto.
Qed.

Lemma constant_answer_loop (n : nat) (vars : Locals) (st : State)
    (response : Response) (homework : list value) (s : value) :
  tokens_present ->
  (forall i, requests_get world i = Ret response) ->
  answers response homework ->
  wf_value (VList homework) ->
  status_of homework = Ret s ->
  exists st' vars',
    loop n vars st = (st', Ret vars') /\
    notifications (trace st') = notifications (trace st).
Proof.
  intros Htok Hget Hans Hwf Hs. revert vars st.
  induction n as [|n IH]; intros vars st; simpl.
  - eexists _, _. split; reflexivity.
  - destruct (same_answer_cycle vars st response homework s Htok
                (Hget _) (Hget _) Hans Hwf Hs)
      as (st1 & t1 & t2 & t3 & Hit & Htr & _).
    unfold bind. rewrite Hit.
    destruct (IH {| current_timestamp := t3; status := Some s |} st1)
      as (st' & vars' & Hloop & Hnot).
    eexists _, _. split; [exact Hloop|].
    rewrite Hnot, Htr, notifications_app. simpl. apply app_nil_r.
Qed.

(** C3. Whenever the status of the first homework equals the recorded one,
    lines 180-190 send nothing and log the no-change message at level DEBUG.
    In particular, a cycle whose two requests receive the same accepted,
    well-formed answer makes its two requests, sleeps once in between, logs
    that message and sends nothing; and as long as every request receives
    that answer, no number of cycles sends anything. *)
Theorem unchanged_status_not_notified :
  (forall (previous new_status : value) (homework : list value) (st : State),
     status_of homework = Ret new_status ->
     py_eq previous new_status = true ->
     compare_and_notify (Some previous) homework st =
       (emit (Log DEBUG "Статус работы не изменился") st, Ret tt)) /\
  (forall (vars : Locals) (st : State) (response : Response)
          (homework : list value) (s : value),
     tokens_present ->
     requests_get world (http_calls st) = Ret response ->
     requests_get world (S (http_calls st)) = Ret response ->
     answers response homework ->
     wf_value (VList homework) ->
     status_of homework = Ret s ->
     exists st' t1 t2 t3,
       iteration vars st =
         (st', Ret {| current_timestamp := t3; status := Some s |}) /\
       trace st' =
         (trace st ++
          [Get ENDPOINT ("OAuth " +:+ str_env PRACTICUM_TOKEN) t1;
           Sleep RETRY_TIME;
           Get ENDPOINT ("OAuth " +:+ str_env PRACTICUM_TOKEN) t2;
           Log DEBUG "Статус работы не изменился"])%list /\
       bot_calls st' = bot_calls st) /\
  (forall (n : nat) (vars : Locals) (st : State) (response : Response)
          (homework : list value) (s : value),
     tokens_present ->
     (forall i, requests_get world i = Ret response) ->
     answers response homework ->
     wf_value (VList homework) ->
     status_of homework = Ret s ->
     exists st' vars',
       loop n vars st = (st', Ret vars') /\
       notifications (trace st') = notifications (trace st)).
Proof.
  split; [exact compare_equal|].
  split; [exact same_answer_cycle | exact constant_answer_loop].
Qed.

Lemma else_body_status (vars vars' : Locals) (st st' : State) :
  else_body vars st = (st', Ret vars') -> status vars' = status vars.
Proof.
  unfold else_body, bind, now, ret.
  repeat match goal with
         | |- context [match ?c with (_, _) => _ end] => destruct c as [? [?|?]]
         end; intros [= <- <-] || discriminate.
  reflexivity.
Qed.

(** An exception raised in the [try] block is handled: the failure is
    logged, sent to the chat, and the loop goes on after the sleep. *)
Lemma exception_in_try_is_handled (vars : Locals) (st st1 : State) (e : exn) :
  try_body vars st = (st1, Raise e) ->
  is_Exception (class_of e) = true ->
  delivered_or_TelegramError (bot_send world (bot_calls st1)) ->
  let message := "Сбой в работе программы: " +:+ str_exn e in
  exists st2,
    iteration vars st = (st2, Ret vars) /\
    trace st2 =
      (trace st1 ++
       [Log ERROR message;
        SendMessage TELEGRAM_CHAT_ID message;
        match bot_send world (bot_calls st1) with
        | Ret _ => Log INFO ("Бот отправил сообщение " +:+ quoted message)
        | Raise error =>
            Log ERROR ("Бот не смог отправить сообщение " +:+ message
                       +:+ ". Ошибка " +:+ str_exn error)
        end;
        Sleep RETRY_TIME])%list.
Proof.
  intros Htry Hcls Hworld message.
  unfold iteration, try_except. rewrite Htry, Hcls.
  unfold except_body. fold message. unfold bind at 1. unfold log at 1.
  unfold bind at 1.
  destruct (send_message_never_raises_aux message (emit (Log ERROR message) st1) Hworld)
    as (st' & Hsend & Htr).
  rewrite Hsend. unfold bind, sleep, ret.
  eexists. split; [reflexivity|].
  simpl. rewrite Htr. simpl. rewrite <- !app_assoc. reflexivity.
Qed.

(** An exception raised in the [else] block is not: it leaves the loop. *)
Lemma exception_in_else_ends_loop
    (n : nat) (vars : Locals) (st st1 st2 : State) (s : value) (e : exn) :
  try_body vars st = (st1, Ret s) ->
  else_body {| current_timestamp := current_timestamp vars; status := Some s |} st1
    = (st2, Raise e) ->
  loop (S n) vars st = (st2, Raise e).
Proof.
  intros Htry Helse. apply loop_raise.
  unfold iteration, try_except. now rewrite Htry.
Qed.

(** ** What a computation leaves untouched *)

Lemma sleeps_app (tr tr' : list event) :
  sleeps (tr ++ tr') = (sleeps tr ++ sleeps tr')%list.
Proof.
  induction tr as [|[] tr IH]; simpl; auto. now rewrite IH.
Qed.

Section Keeps.
Variable R : State -> State -> Prop.
Hypothesis R_refl : forall st, R st st.
Hypothesis R_trans : forall a b c, R a b -> R b c -> R a c.
Hypothesis R_log : forall lvl msg st, R st (emit (Log lvl msg) st).

Lemma keeps_ret {A} (a : A) : keeps R (ret a).
Proof. intros st st' r [= <- _]. apply R_refl. Qed.

Lemma keeps_raise {A} (e : exn) : keeps R (@raise A e).
Proof. intros st st' r [= <- _]. apply R_refl. Qed.

Lemma keeps_lift {A} (x : result A) : keeps R (lift x).
Proof. intros st st' r [= <- _]. apply R_refl. Qed.

Lemma keeps_log (lvl : level) (msg : string) : keeps R (log lvl msg).
Proof. intros st st' r [= <- _]. apply R_log. Qed.

Lemma keeps_load {A} (var : string) (x : option A) : keeps R (load var x).
Proof. destruct x; [apply keeps_ret | apply keeps_raise]. Qed.

Lemma keeps_bind {A B} (c : M A) (k : A -> M B) :
  keeps R c -> (forall a, keeps R (k a)) -> keeps R (bind c k).
Proof.
  intros Hc Hk st st' r. unfold bind.
  destruct (c st) as [st1 [a|e]] eqn:Hrun.
  - intros Hrest. eapply R_trans; [eapply Hc, Hrun | eapply Hk, Hrest].
  - intros [= <- _]. eapply Hc, Hrun.
Qed.

Lemma keeps_for_each {A} (l : list A) (body : A -> M unit) :
  (forall x, keeps R (body x)) -> keeps R (for_each l body).
Proof.
  intros Hbody. induction l as [|x l IH]; simpl.
  - apply keeps_ret.
  - apply keeps_bind; auto.
Qed.

Lemma keeps_try_except {A B} (body : M A) (catches : exn_class -> bool)
    (handler : exn -> M B) (orelse : A -> M B) :
  keeps R body -> (forall e, keeps R (handler e)) -> (forall a, keeps R (orelse a)) ->
  keeps R (try_except body catches handler orelse).
Proof.
  intros Hbody Hhandler Horelse st st' r. unfold try_except.
  destruct (body st) as [st1 [a|e]] eqn:Hrun.
  - intros Hrest. eapply R_trans; [eapply Hbody, Hrun | eapply Horelse, Hrest].
  - destruct (catches (class_of e)).
    + intros Hrest. eapply R_trans; [eapply Hbody, Hrun | eapply Hhandler, Hrest].
    + intros [= <- _]. eapply Hbody, Hrun.
Qed.
End Keeps.

Lemma quiet_refl (st : State) : quiet st st.
Proof. repeat split. Qed.

Lemma quiet_trans (a b c : State) : quiet a b -> quiet b c -> quiet a c.
Proof. unfold quiet. intros (?&?&?&?) (?&?&?&?). repeat split; congruence. Qed.

Lemma quiet_log (lvl : level) (msg : string) (st : State) :
  quiet st (emit (Log lvl msg) st).
Proof.
  unfold quiet; simpl. rewrite sleeps_app, notifications_app; simpl.
  now rewrite !app_nil_r.
Qed.

Lemma offline_refl (st : State) : offline st st.
Proof. split; reflexivity. Qed.

Lemma offline_trans (a b c : State) : offline a b -> offline b c -> offline a c.
Proof. unfold offline. intros (?&?) (?&?). split; congruence. Qed.

Lemma offline_log (lvl : level) (msg : string) (st : State) :
  offline st (emit (Log lvl msg) st).
Proof. unfold offline; simpl. rewrite sleeps_app; simpl. now rewrite app_nil_r. Qed.

Lemma quiet_offline (a b : State) : quiet a b -> offline a b.
Proof. intros (?&?&?&?). now split. Qed.

Ltac keeps_side :=
  first [ exact quiet_refl | exact quiet_trans | exact quiet_log
        | exact offline_refl | exact offline_trans | exact offline_log ].

Ltac keeps_step :=
  first
    [ apply keeps_ret; keeps_side | apply keeps_raise; keeps_side
    | apply keeps_lift; keeps_side | apply keeps_log; keeps_side
    | apply keeps_load; keeps_side
    | apply keeps_for_each; [keeps_side | keeps_side | intros]
    | apply keeps_bind; [keeps_side | | intros]
    | match goal with
      | |- keeps _ (if ?b then _ else _) => destruct b
      | |- keeps _ (match ?x with _ => _ end) => destruct x
      | |- keeps _ (let _ := _ in _) => cbv zeta
      end ].

Lemma check_response_quiet (response : value) : keeps quiet (check_response response).
Proof. unfold check_response. repeat keeps_step. Qed.

Lemma parse_status_quiet (homework : value) : keeps quiet (parse_status homework).
Proof. unfold parse_status. repeat keeps_step. Qed.

(** ** get_api_answer, whatever the answer *)

Lemma get_api_answer_shape (t : Z) (st : State) :
  exists st' r logs,
    get_api_answer t st = (st', r) /\
    trace st' =
      (trace st ++
       Get ENDPOINT ("OAuth " +:+ str_env PRACTICUM_TOKEN)
           (if (t =? 0)%Z then time_time world (clock_reads st) else t) :: logs)%list /\
    Forall is_Log logs /\
    http_calls st' = S (http_calls st) /\
    bot_calls st' = bot_calls st.
Proof.
  unfold get_api_answer, requests_get_, now.
  destruct (t =? 0)%Z; run_M;
    (destruct (requests_get world (http_calls st)) as [response|e]; simpl;
     [ destruct (status_code response =? 200)%Z; simpl;
       [ destruct (Response_bool response); simpl |] |]);
    eexists _, _, _; (split; [reflexivity|]); simpl;
    rewrite <- ?app_assoc; simpl;
    (split; [reflexivity|]); repeat split; repeat constructor.
Qed.

(** X1. Whatever the outcome, [get_api_answer] makes exactly one request: to
    [ENDPOINT], with the OAuth header built from [PRACTICUM_TOKEN], and with
    [from_date] equal to its argument, or to the current time when the
    argument is 0 (the only case in which the clock is read).  It sends no
    message, and all it adds to the trace after the request are log records. *)
Theorem get_api_answer_one_request (t : Z) (st : State) :
  exists st' r logs,
    get_api_answer t st = (st', r) /\
    trace st' =
      (trace st ++
       Get ENDPOINT ("OAuth " +:+ str_env PRACTICUM_TOKEN)
           (if (t =? 0)%Z then time_time world (clock_reads st) else t) :: logs)%list /\
    Forall is_Log logs /\
    http_calls st' = S (http_calls st) /\
    bot_calls st' = bot_calls st /\
    clock_reads st' = (if (t =? 0)%Z then S (clock_reads st) else clock_reads st).
Proof.
  unfold get_api_answer, requests_get_, now.
  destruct (t =? 0)%Z; run_M;
    (destruct (requests_get world (http_calls st)) as [response|e]; simpl;
     [ destruct (status_code response =? 200)%Z; simpl;
       [ destruct (Response_bool response); simpl |] |]);
    eexists _, _, _; (split; [reflexivity|]); simpl;
    rewrite <- ?app_assoc; simpl;
    (split; [reflexivity|]); repeat split; repeat constructor.
Qed.

(** X2. A 200 answer is decoded and returned as it is, whatever the decoded
    value (falsy values included): [get_api_answer] gives back the outcome of
    [response.json()], its exception if the body is not JSON, and logs
    nothing. *)
Theorem get_api_answer_success (t : Z) (st : State) (response : Response) :
  requests_get world (http_calls st) = Ret response ->
  status_code response = 200 ->
  get_api_answer t st = (fetched t st, json response).
Proof.
  intros Hget Hcode. unfold get_api_answer, requests_get_, now, Response_bool, fetched.
  destruct (t =? 0)%Z; run_M; now rewrite Hget, Hcode.
Qed.

(** X3. When [requests.get] itself raises (no connection, a timeout),
    [get_api_answer] lets the exception through as it is and logs nothing. *)
Theorem get_api_answer_transport_error (t : Z) (st : State) (e : exn) :
  requests_get world (http_calls st) = Raise e ->
  get_api_answer t st = (fetched t st, Raise e).
Proof.
  intros Hget. unfold get_api_answer, requests_get_, now, fetched.
  destruct (t =? 0)%Z; run_M; now rewrite Hget.
Qed.

Lemma get_api_answer_offline_but_one (t : Z) (st st' : State) (r : result value) :
  get_api_answer t st = (st', r) ->
  sleeps (trace st') = sleeps (trace st) /\
  notifications (trace st') = notifications (trace st) /\
  http_calls st' = S (http_calls st) /\
  bot_calls st' = bot_calls st.
Proof.
  intros Hrun.
  destruct (get_api_answer_shape t st)
    as (st1 & r1 & logs & Hrun1 & Htr & Hlogs & Hhttp & Hbot).
  rewrite Hrun in Hrun1. injection Hrun1 as <- <-.
  rewrite Htr, sleeps_app, notifications_app. simpl.
  assert (Hs : sleeps logs = [] /\ notifications logs = []).
  { clear -Hlogs. induction Hlogs as [|[] logs Hx _ [IH1 IH2]]; simpl; auto;
      contradiction. }
  destruct Hs as [-> ->]. now rewrite !app_nil_r.
Qed.

(** ** check_response, case by case *)

Lemma check_response_cases (response : value) (st : State) :
  check_response response st =
    let fail c m := (emits [Log ERROR m] st, Raise (Exc c m)) in
    if negb (truthy response) then
      fail Exception "Получен пустой ответ при обращении к API"
    else
      match response with
      | VDict d =>
          if negb (dict_has "homeworks" d) then
            fail KeyError ("Отсутствует ключ " +:+ quoted "homeworks" +:+ " в ответе API")
          else if negb (dict_has "current_date" d) then
            fail KeyError ("Отсутствует ключ " +:+ quoted "current_date" +:+ " в ответе API")
          else
            match dict_get "homeworks" d with
            | Some (VList l) => (st, Ret l)
            | _ => fail TypeError ("Объект по ключу " +:+ quoted "homeworks"
                                   +:+ " не является списком")
            end
      | _ => fail TypeError "Получен некорретный ответ при обрщаении к API"
      end.
Proof.
  unfold check_response. cbv zeta.
  destruct (truthy response); [|reflexivity]. cbn [negb].
  destruct response; try reflexivity.
  unfold getitem, dict_has. run_M.
  destruct (dict_get "homeworks" d) as [[]|]; simpl; try reflexivity;
    destruct (dict_get "current_date" d); reflexivity.
Qed.

(** X4. [check_response] returns a list exactly when the payload is an object
    that has [current_date] and holds a list under [homeworks]; it then
    returns that list as it is (possibly empty) and logs nothing. *)
Theorem check_response_returns_iff
    (response : value) (homework : list value) (st st' : State) :
  check_response response st = (st', Ret homework) <->
  st' = st /\
  exists d, response = VDict d /\
            dict_get "homeworks" d = Some (VList homework) /\
            dict_has "current_date" d = true.
Proof.
  rewrite check_response_cases. cbv zeta. split.
  - destruct (truthy response); cbn [negb]; [|discriminate].
    destruct response; try discriminate.
    destruct (dict_has "homeworks" d); cbn [negb]; [|discriminate].
    destruct (dict_has "current_date" d) eqn:Hdate; cbn [negb]; [|discriminate].
    destruct (dict_get "homeworks" d) as [[]|] eqn:Hhw; try discriminate.
    intros [= <- <-]. split; [reflexivity|]. exists d. auto.
  - intros (-> & d & -> & Hhw & Hdate).
    assert (Ht : truthy (VDict d) = true) by (destruct d; [discriminate|reflexivity]).
    rewrite Ht. unfold dict_has in *. rewrite Hhw. cbn [negb].
    destruct (dict_get "current_date" d); [reflexivity|discriminate].
Qed.

(** X5. A falsy payload (None, False, 0, an empty string, list or object) is
    refused as an empty answer: the message is logged as an error and raised
    as a plain Exception. *)
Theorem check_response_falsy (response : value) (st : State) :
  truthy response = false ->
  check_response response st =
    (emits [Log ERROR "Получен пустой ответ при обращении к API"] st,
     Raise (Exc Exception "Получен пустой ответ при обращении к API")).
Proof. intros Hf. rewrite check_response_cases. cbv zeta. now rewrite Hf. Qed.

(** X6. A truthy payload that is not an object (a non-empty list or string,
    a number, True) is refused with TypeError, logged as an error. *)
Theorem check_response_not_object (response : value) (st : State) :
  truthy response = true ->
  type_of response <> dict_t ->
  check_response response st =
    (emits [Log ERROR "Получен некорретный ответ при обрщаении к API"] st,
     Raise (Exc TypeError "Получен некорретный ответ при обрщаении к API")).
Proof.
  intros Ht Hty. rewrite check_response_cases. cbv zeta. rewrite Ht.
  destruct response; simpl in Hty; try reflexivity. congruence.
Qed.

(** X7. An object that has both keys but holds something other than a list
    under [homeworks] is refused with TypeError, logged as an error. *)
Theorem check_response_homeworks_not_list
    (d : list (string * value)) (x : value) (st : State) :
  dict_get "homeworks" d = Some x ->
  type_of x <> list_t ->
  dict_has "current_date" d = true ->
  let message :=
    "Объект по ключу " +:+ quoted "homeworks" +:+ " не является списком" in
  check_response (VDict d) st =
    (emits [Log ERROR message] st, Raise (Exc TypeError message)).
Proof.
  intros Hhw Hty Hdate message. rewrite check_response_cases. cbv zeta.
  assert (Ht : truthy (VDict d) = true) by (destruct d; [discriminate|reflexivity]).
  rewrite Ht, Hdate. unfold dict_has. rewrite Hhw. cbn [negb].
  destruct x; simpl in Hty; try reflexivity. congruence.
Qed.

(** X8. Whenever [check_response] raises, it has logged exactly one record
    before, at level ERROR, whose text is the argument of the exception; and
    the exception is a plain Exception, a TypeError or a KeyError. *)
Theorem check_response_failure_is_logged
    (response : value) (st st' : State) (e : exn) :
  check_response response st = (st', Raise e) ->
  exists c m,
    e = Exc c m /\
    st' = emits [Log ERROR m] st /\
    (c = Exception \/ c = TypeError \/ c = KeyError).
Proof.
  rewrite check_response_cases. cbv zeta.
  repeat match goal with
         | |- context [if ?b then _ else _] => destruct b
         | |- context [match ?x with _ => _ end] => destruct x
         end;
    intros [= <- <-] || discriminate; eexists _, _; eauto.
Qed.

(** ** parse_status, case by case *)

(** X9. A record without [homework_name] or without [status] (the empty
    object included) is refused with KeyError; the message names the first
    absent key, [homework_name] before [status], and is logged as an error. *)
Theorem parse_status_missing_key (d : list (string * value)) (st : State) :
  dict_has "homework_name" d = false \/ dict_has "status" d = false ->
  let key := if dict_has "homework_name" d then "status" else "homework_name" in
  let message :=
    "Отсутствует ключ " +:+ quoted key +:+ " в объекте " +:+ quoted "homework" in
  parse_status (VDict d) st =
    (emits [Log ERROR message] st, Raise (Exc KeyError message)).
Proof.
  intros Hmiss. unfold parse_status, contains. run_M.
  destruct (dict_has "homework_name" d); [|reflexivity].
  destruct Hmiss as [Hmiss|Hmiss]; [discriminate|].
  cbn [negb]. rewrite Hmiss. reflexivity.
Qed.

(** X10. [parse_status] returns a message exactly when the record is an
    object whose name is truthy and whose status is a string key of
    [HOMEWORK_STATUSES].  It has then logged nothing, and the message is the
    announcement with [str] of the name between double quotes followed by the
    verdict of the catalogue for that status. *)
Theorem parse_status_returns_iff
    (homework : value) (message : string) (st st' : State) :
  parse_status homework st = (st', Ret message) <->
  st' = st /\
  exists d name s verdict,
    homework = VDict d /\
    dict_get "homework_name" d = Some name /\ truthy name = true /\
    dict_get "status" d = Some (VStr s) /\
    HOMEWORK_STATUSES !! s = Some verdict /\
    message = "Изменился статус проверки работы " +:+ quoted (py_str name)
              +:+ ". " +:+ verdict.
Proof.
  split.
  - unfold parse_status, contains, getitem, dict_has.
    destruct homework; run_M; try discriminate.
    + destruct (is_substring "homework_name" s); simpl; [|discriminate].
      destruct (is_substring "status" s); discriminate.
    + destruct (existsb _ l); simpl; [|discriminate].
      destruct (existsb _ l); discriminate.
    + destruct (dict_get "homework_name" d) as [name|] eqn:Hname; simpl; [|discriminate].
      destruct (dict_get "status" d) as [s|] eqn:Hstatus; simpl; [|discriminate].
      destruct (truthy name) eqn:Ht; simpl;
        (destruct s; simpl; try discriminate;
         destruct (HOMEWORK_STATUSES !! s) as [verdict|] eqn:Hv; simpl;
         try discriminate).
      intros [= <- <-]. split; [reflexivity|].
      exists d, name, s, verdict. repeat split; assumption.
  - intros (-> & d & name & s & verdict & -> & Hname & Ht & Hstatus & Hv & ->).
    unfold parse_status, contains, getitem, dict_has. run_M.
    rewrite Hname, Hstatus. simpl. rewrite Ht. simpl. rewrite Hv. reflexivity.
Qed.

(** X11. Given anything but an object, [parse_status] raises and returns no
    message.  None, a boolean or a number cannot be searched: TypeError, with
    nothing logged.  A string or a list that does not contain [homework_name]
    (as a substring, as an item), or else does not contain [status], gives
    the KeyError that names this key, logged as an error.  A string or a
    list that contains both cannot be indexed by a string: TypeError, with
    nothing logged. *)
Theorem parse_status_non_object_raises (homework : value) (st : State) :
  type_of homework <> dict_t ->
  let has key :=
    match homework with
    | VStr s => is_substring key s
    | VList l => existsb (py_eq (VStr key)) l
    | _ => false
    end in
  let missing key :=
    let message :=
      "Отсутствует ключ " +:+ quoted key +:+ " в объекте " +:+ quoted "homework" in
    (emits [Log ERROR message] st, @Raise string (Exc KeyError message)) in
  parse_status homework st =
    match homework with
    | VNone | VBool _ | VInt _ => (st, Raise (Fault (NotIterable (type_of homework))))
    | _ =>
        if negb (has "homework_name") then missing "homework_name"
        else if negb (has "status") then missing "status"
        else (st, Raise (Fault (IndexNotInt (type_of homework))))
    end.
Proof.
  intros Hty has missing. subst has missing.
  unfold parse_status, contains, getitem.
  destruct homework; simpl in Hty; try congruence; run_M; try reflexivity;
    repeat match goal with
           | |- context [if negb ?b then _ else _] => destruct b; simpl
           end;
    reflexivity.
Qed.

(** X12. A record whose status is a list or an object cannot be looked up in
    the catalogue: [parse_status] raises TypeError for the unhashable value,
    after the error for an empty name if the name is falsy. *)
Theorem parse_status_unhashable_status
    (d : list (string * value)) (name s : value) (st : State) :
  dict_get "homework_name" d = Some name ->
  dict_get "status" d = Some s ->
  type_of s = list_t \/ type_of s = dict_t ->
  parse_status (VDict d) st =
    (emits (if truthy name then [] else [Log ERROR "Отсуствует имя проекта"]) st,
     Raise (Fault (Unhashable (type_of s)))).
Proof.
  intros Hname Hstatus Hty.
  unfold parse_status, contains, getitem, dict_has. run_M.
  rewrite Hname, Hstatus. simpl.
  destruct s; simpl in Hty; try (destruct Hty; discriminate);
    destruct (truthy name); simpl; tidy; reflexivity.
Qed.

(** ** check_tokens *)

Lemma env_truthy_is_set (t : option string) : env_truthy t = true <-> is_set t.
Proof.
  unfold is_set. destruct t as [s|]; simpl.
  - destruct (String.eqb_spec s EmptyString) as [->|Hne]; simpl; split.
    + discriminate.
    + intros (s' & [= <-] & Hne). congruence.
    + eauto.
    + reflexivity.
  - split; [discriminate|]. intros (s & [=] & _).
Qed.

(** X13. [check_tokens] returns True exactly when each of the three
    environment values is a non-empty string (an empty string counts as
    missing); it logs at level CRITICAL exactly when it returns False, and it
    never raises. *)
Theorem check_tokens_true_iff (st : State) :
  exists ok : bool,
    check_tokens st =
      ((if ok then st
        else emit (Log CRITICAL "Отсутствует обязательная переменная окружения") st),
       Ret ok) /\
    (ok = true <->
     is_set PRACTICUM_TOKEN /\ is_set TELEGRAM_TOKEN /\ is_set TELEGRAM_CHAT_ID).
Proof.
  exists (env_truthy PRACTICUM_TOKEN && env_truthy TELEGRAM_TOKEN
          && env_truthy TELEGRAM_CHAT_ID).
  split.
  - rewrite check_tokens_spec.
    now destruct (env_truthy PRACTICUM_TOKEN && env_truthy TELEGRAM_TOKEN
                  && env_truthy TELEGRAM_CHAT_ID).
  - rewrite !andb_true_iff, !env_truthy_is_set. tauto.
Qed.

(** ** send_message, whatever the outcome *)

Lemma send_message_one_attempt_aux (message : string) (st : State) :
  exists st' r logs,
    send_message message st = (st', r) /\
    trace st' = (trace st ++ SendMessage TELEGRAM_CHAT_ID message :: logs)%list /\
    Forall is_Log logs /\
    http_calls st' = http_calls st /\
    bot_calls st' = S (bot_calls st).
Proof.
  unfold send_message, try_except, bot_send_message.
  destruct (bot_send world (bot_calls st)) as [[]|e]; simpl;
    [| destruct (is_TelegramError (class_of e)); simpl ];
    eexists _, _, _; (split; [reflexivity|]); simpl;
    rewrite <- ?app_assoc; simpl;
    (split; [reflexivity|]); repeat split; repeat constructor.
Qed.

(** X14. An exception of [bot.send_message] that is no TelegramError is not
    caught: [send_message] lets it through and logs nothing. *)
Theorem send_message_other_exception_propagates
    (message : string) (st : State) (e : exn) :
  bot_send world (bot_calls st) = Raise e ->
  is_TelegramError (class_of e) = false ->
  send_message message st =
    ({| clock_reads := clock_reads st; http_calls := http_calls st;
        bot_calls := S (bot_calls st);
        trace := trace st ++ [SendMessage TELEGRAM_CHAT_ID message] |},
     Raise e).
Proof.
  intros Hsend Hcls. unfold send_message, try_except, bot_send_message.
  now rewrite Hsend, Hcls.
Qed.

(** X15. Whatever the outcome, [send_message] calls [bot.send_message] exactly
    once, for [TELEGRAM_CHAT_ID] and with the text it was given; it does not
    try again, makes no request, and adds at most one log record after the
    call. *)
Theorem send_message_one_attempt (message : string) (st : State) :
  exists st' r logs,
    send_message message st = (st', r) /\
    trace st' = (trace st ++ SendMessage TELEGRAM_CHAT_ID message :: logs)%list /\
    Forall is_Log logs /\ (length logs <= 1)%nat /\
    bot_calls st' = S (bot_calls st) /\
    http_calls st' = http_calls st /\
    clock_reads st' = clock_reads st.
Proof.
  unfold send_message, try_except, bot_send_message.
  destruct (bot_send world (bot_calls st)) as [[]|e]; simpl;
    [| destruct (is_TelegramError (class_of e)); simpl ];
    eexists _, _, _; (split; [reflexivity|]); simpl;
    rewrite <- ?app_assoc; simpl;
    (split; [reflexivity|]); repeat split; repeat constructor.
Qed.

Lemma send_message_offline (message : string) : keeps offline (send_message message).
Proof.
  intros st st' r Hrun.
  destruct (send_message_one_attempt_aux message st)
    as (st1 & r1 & logs & Hrun1 & Htr & Hlogs & Hhttp & _).
  rewrite Hrun in Hrun1. injection Hrun1 as <- <-.
  split; [|exact Hhttp].
  rewrite Htr, sleeps_app. simpl.
  assert (Hs : sleeps logs = []).
  { clear -Hlogs. induction Hlogs as [|[] logs Hx _ IH]; simpl; auto; contradiction. }
  rewrite Hs. apply app_nil_r.
Qed.

(** ** The cycle, step by step *)

Lemma bind_inv {A B} (c : M A) (k : A -> M B) (st st' : State) (r : result B) :
  bind c k st = (st', r) ->
  (exists st1 a, c st = (st1, Ret a) /\ k a st1 = (st', r)) \/
  (exists e, c st = (st', Raise e) /\ r = Raise e).
Proof.
  unfold bind. destruct (c st) as [st1 [a|e]].
  - intros H. left. eauto.
  - intros [= <- <-]. right. eauto.
Qed.

Lemma compare_and_notify_offline (previous : option value) (homework : list value) :
  keeps offline (compare_and_notify previous homework).
Proof.
  unfold compare_and_notify. repeat keeps_step.
  apply send_message_offline.
Qed.

Lemma try_body_frame (vars : Locals) (st st1 : State) (r : result value) :
  try_body vars st = (st1, r) ->
  match r with
  | Ret _ =>
      sleeps (trace st1) = (sleeps (trace st) ++ [RETRY_TIME])%list /\
      notifications (trace st1) = notifications (trace st) /\
      http_calls st1 = S (http_calls st) /\
      bot_calls st1 = bot_calls st
  | Raise e =>
      is_Exception (class_of e) = true ->
      sleeps (trace st1) = sleeps (trace st) /\
      notifications (trace st1) = notifications (trace st) /\
      http_calls st1 = S (http_calls st) /\
      bot_calls st1 = bot_calls st
  end.
Proof.
  unfold try_body. intros Hrun.
  apply bind_inv in Hrun as [(st2 & ok & Htok & Hrun)|(e & Htok & ->)];
    rewrite check_tokens_spec in Htok;
    destruct (env_truthy PRACTICUM_TOKEN && env_truthy TELEGRAM_TOKEN
              && env_truthy TELEGRAM_CHAT_ID); try discriminate;
    injection Htok as <- <-; cbn [negb] in Hrun.
  2:{ apply bind_inv in Hrun as [(? & ? & [=] & _)|(e & [= <- <-] & ->)].
      discriminate. }
  apply bind_inv in Hrun as [(st2 & [] & [= <-] & Hrun)|(e & [=] & _)].
  apply bind_inv in Hrun as [(st3 & response & Hget & Hrun)|(e & Hget & ->)];
    apply get_api_answer_offline_but_one in Hget as (Hs3 & Hn3 & Hh3 & Hb3);
    [|intros _; auto].
  apply bind_inv in Hrun as [(st4 & homework & Hchk & Hrun)|(e & Hchk & ->)];
    apply check_response_quiet in Hchk as (Hs4 & Hn4 & Hh4 & Hb4);
    [|intros _; repeat split; congruence].
  rewrite first_status_run in Hrun.
  destruct (status_of homework) as [s|e].
  - unfold bind, sleep, ret in Hrun. injection Hrun as <- <-. simpl.
    rewrite sleeps_app, notifications_app. simpl. rewrite app_nil_r.
    repeat split; congruence.
  - injection Hrun as <- <-. intros _. repeat split; congruence.
Qed.

Lemma else_body_frame (vars : Locals) (st st' : State) (r : result Locals) :
  else_body vars st = (st', r) ->
  sleeps (trace st') = sleeps (trace st) /\ http_calls st' = S (http_calls st).
Proof.
  unfold else_body. intros Hrun.
  apply bind_inv in Hrun as [(st1 & t & [= <- <-] & Hrun)|(e & [=] & _)].
  apply bind_inv in Hrun as [(st2 & response & Hget & Hrun)|(e & Hget & ->)];
    apply get_api_answer_offline_but_one in Hget as (Hs2 & _ & Hh2 & _);
    simpl in Hs2, Hh2; [|split; assumption].
  apply bind_inv in Hrun as [(st3 & homework & Hchk & Hrun)|(e & Hchk & ->)];
    apply check_response_quiet in Hchk as (Hs3 & _ & Hh3 & _);
    [|split; congruence].
  apply bind_inv in Hrun as [(st4 & [] & Hcmp & [= <- <-])|(e & Hcmp & ->)];
    apply compare_and_notify_offline in Hcmp as (Hs4 & Hh4);
    split; congruence.
Qed.

Lemma except_body_frame (vars vars' : Locals) (error : exn) (st st' : State) :
  except_body vars error st = (st', Ret vars') ->
  sleeps (trace st') = (sleeps (trace st) ++ [RETRY_TIME])%list /\
  http_calls st' = http_calls st /\
  vars' = vars.
Proof.
  unfold except_body. intros Hrun.
  apply bind_inv in Hrun as [(st1 & [] & [= <-] & Hrun)|(e & [=] & _)].
  apply bind_inv in Hrun as [(st2 & [] & Hsend & Hrun)|(e & _ & [=])].
  apply send_message_offline in Hsend as (Hs2 & Hh2).
  unfold bind, sleep, ret in Hrun. injection Hrun as <- <-. simpl.
  rewrite sleeps_app, Hs2. simpl. rewrite sleeps_app. simpl.
  rewrite app_nil_r. repeat split. exact Hh2.
Qed.

Lemma iteration_frame (vars vars' : Locals) (st st' : State) :
  iteration vars st = (st', Ret vars') ->
  sleeps (trace st') = (sleeps (trace st) ++ [RETRY_TIME])%list /\
  (http_calls st' = S (http_calls st) \/ http_calls st' = S (S (http_calls st))).
Proof.
  unfold iteration, try_except.
  destruct (try_body vars st) as [st1 [s|e]] eqn:Htry;
    apply try_body_frame in Htry.
  - destruct Htry as (Hs1 & _ & Hh1 & _). intros Helse.
    apply else_body_frame in Helse as (Hs2 & Hh2).
    split; [congruence|]. right. congruence.
  - destruct (is_Exception (class_of e)); [|discriminate].
    destruct (Htry eq_refl) as (Hs1 & _ & Hh1 & _). intros Hexc.
    apply except_body_frame in Hexc as (Hs2 & Hh2 & _).
    split; [congruence|]. left. congruence.
Qed.

(** X16. A run of [n] completed cycles has slept exactly [n] times, each time
    for [RETRY_TIME] seconds, whether the cycles succeeded or failed; and it
    has made at least [n] and at most [2 n] requests. *)
Theorem completed_cycles_sleep_once_each
    (n : nat) (vars vars' : Locals) (st st' : State) :
  loop n vars st = (st', Ret vars') ->
  sleeps (trace st') = (sleeps (trace st) ++ repeat RETRY_TIME n)%list /\
  (n + http_calls st <= http_calls st' <= 2 * n + http_calls st)%nat.
Proof.
  revert vars st. induction n as [|n IH]; intros vars st; simpl.
  - intros [= <- <-]. rewrite app_nil_r. split; [reflexivity|lia].
  - intros Hrun.
    apply bind_inv in Hrun as [(st1 & vars1 & Hit & Hrun)|(e & _ & [=])].
    apply iteration_frame in Hit as (Hs1 & Hh1).
    apply IH in Hrun as (Hs & Hh).
    rewrite Hs, Hs1, <- app_assoc. split; [reflexivity|lia].
Qed.

(** ** The cycle: notification of a change *)

Lemma parse_status_ok
    (d : list (string * value)) (name : value) (s verdict : string) (st : State) :
  dict_get "homework_name" d = Some name ->
  truthy name = true ->
  dict_get "status" d = Some (VStr s) ->
  HOMEWORK_STATUSES !! s = Some verdict ->
  parse_status (VDict d) st =
    (st, Ret ("Изменился статус проверки работы " +:+ quoted (py_str name)
              +:+ ". " +:+ verdict)).
Proof.
  intros Hname Ht Hstatus Hv.
  unfold parse_status, contains, getitem, dict_has. run_M.
  rewrite Hname, Hstatus. simpl. rewrite Ht. simpl. rewrite Hv. reflexivity.
Qed.

Lemma catalogue_key_truthy (s verdict : string) :
  HOMEWORK_STATUSES !! s = Some verdict -> truthy (VStr s) = true.
Proof.
  intros Hv. simpl. destruct (String.eqb_spec s EmptyString) as [->|]; [|reflexivity].
  vm_compute in Hv. discriminate.
Qed.

Lemma delivered_message (message : string) (st : State) :
  delivered_or_TelegramError (bot_send world (bot_calls st)) ->
  exists st',
    send_message message st = (st', Ret tt) /\
    notifications (trace st') = (notifications (trace st) ++ [message])%list /\
    sleeps (trace st') = sleeps (trace st) /\
    http_calls st' = http_calls st /\
    bot_calls st' = S (bot_calls st).
Proof.
  intros Hworld.
  destruct (send_message_never_raises_aux message st Hworld) as (st' & Hsend & Htr).
  destruct (send_message_one_attempt_aux message st)
    as (st1 & r1 & logs & Hrun1 & _ & _ & Hhttp & Hbot).
  rewrite Hsend in Hrun1. injection Hrun1 as <- <-.
  exists st'. split; [exact Hsend|].
  rewrite Htr, notifications_app, sleeps_app.
  destruct (bot_send world (bot_calls st)); simpl; rewrite ?app_nil_r; auto.
Qed.

(** X17. A cycle whose first answer is accepted with status [s], and whose
    second answer is accepted with a first record of truthy name and of a
    catalogue status other than [s], sends one message: the announcement for
    that record.  It is sent once, after the two requests of the cycle, and
    the cycle ends normally even if Telegram refuses the message. *)
Theorem changed_status_is_notified_once
    (vars : Locals) (st : State) (response1 response2 : Response)
    (homework1 rest : list value) (d : list (string * value))
    (s name : value) (s' verdict : string) :
  tokens_present ->
  requests_get world (http_calls st) = Ret response1 ->
  answers response1 homework1 ->
  status_of homework1 = Ret s ->
  requests_get world (S (http_calls st)) = Ret response2 ->
  answers response2 (VDict d :: rest) ->
  dict_get "homework_name" d = Some name ->
  truthy name = true ->
  dict_get "status" d = Some (VStr s') ->
  HOMEWORK_STATUSES !! s' = Some verdict ->
  py_eq s (VStr s') = false ->
  delivered_or_TelegramError (bot_send world (bot_calls st)) ->
  exists st' t,
    iteration vars st = (st', Ret {| current_timestamp := t; status := Some s |}) /\
    notifications (trace st') =
      (notifications (trace st) ++
       ["Изменился статус проверки работы " +:+ quoted (py_str name)
        +:+ ". " +:+ verdict])%list /\
    bot_calls st' = S (bot_calls st) /\
    http_calls st' = S (S (http_calls st)).
Proof.
  intros Htok Hget1 Hans1 Hs Hget2 Hans2 Hname Ht Hstatus Hv Hne Hworld.
  unfold iteration, try_except.
  rewrite (try_body_ok vars st response1 homework1 s Htok Hget1 Hans1 Hs).
  unfold else_body. unfold bind at 1. unfold now at 1.
  erewrite fetch_ok; [| exact Hget2 | exact Hans2].
  unfold bind at 1. unfold compare_and_notify.
  rewrite first_status_run. cbn [status_of getitem]. rewrite Hstatus.
  unfold bind at 1. rewrite (catalogue_key_truthy s' verdict Hv).
  unfold bind at 1. cbn [status load ret]. rewrite Hne. cbn [negb].
  unfold bind at 1. cbn [first_item lift].
  unfold bind at 1. rewrite (parse_status_ok d name s' verdict _ Hname Ht Hstatus Hv).
  match goal with
  | |- context [send_message ?m ?stx] =>
      destruct (delivered_message m stx) as (st' & Hsend & Hn & _ & Hh & Hb);
      [exact Hworld|]
  end.
  rewrite Hsend. eexists _, _. split; [reflexivity|].
  rewrite Hn, Hh, Hb. simpl.
  rewrite !notifications_app. simpl. rewrite !app_nil_r. auto.
Qed.

(** X18. A falsy new status (no homework in the list, or a first record
    whose status is None, empty, 0 or False) is never announced, whatever was
    recorded before, even nothing: lines 180-190 log the no-change message
    and send nothing. *)
Theorem falsy_new_status_not_notified
    (previous : option value) (homework : list value) (new_status : value)
    (st : State) :
  status_of homework = Ret new_status ->
  truthy new_status = false ->
  compare_and_notify previous homework st =
    (emit (Log DEBUG "Статус работы не изменился") st, Ret tt).
Proof.
  intros Hs Hfalsy.
  unfold compare_and_notify. rewrite first_status_run, Hs. run_M.
  now rewrite Hfalsy.
Qed.

(** ** The cycle: failures *)

Lemma failure_cycle (vars : Locals) (st st1 : State) (e : exn) :
  try_body vars st = (st1, Raise e) ->
  is_Exception (class_of e) = true ->
  delivered_or_TelegramError (bot_send world (bot_calls st)) ->
  exists st2,
    iteration vars st = (st2, Ret vars) /\
    notifications (trace st2) =
      (notifications (trace st) ++ ["Сбой в работе программы: " +:+ str_exn e])%list /\
    sleeps (trace st2) = (sleeps (trace st) ++ [RETRY_TIME])%list /\
    http_calls st2 = S (http_calls st) /\
    bot_calls st2 = S (bot_calls st).
Proof.
  intros Htry Hcls Hworld.
  pose proof (try_body_frame _ _ _ _ Htry Hcls) as (Hs1 & Hn1 & Hh1 & Hb1).
  unfold iteration, try_except. rewrite Htry, Hcls.
  unfold except_body. unfold bind at 1. unfold log at 1.
  destruct (delivered_message ("Сбой в работе программы: " +:+ str_exn e)
              (emit (Log ERROR ("Сбой в работе программы: " +:+ str_exn e)) st1))
    as (st' & Hsend & Hn & Hs & Hh & Hb).
  { simpl. now rewrite Hb1. }
  unfold bind at 1. rewrite Hsend. unfold bind, sleep, ret.
  eexists. split; [reflexivity|]. simpl.
  rewrite sleeps_app, notifications_app, Hn, Hs, Hh, Hb. simpl.
  rewrite sleeps_app, notifications_app. simpl. rewrite !app_nil_r.
  repeat split; congruence.
Qed.

(** X19. Any exception of class Exception raised in the [try] block (by the
    request, by the decoding, by [check_response], by reading the status) is
    reported once to the chat as a failure of the program, followed by one
    sleep; the cycle ends normally with the locals as they were, so the next
    cycle asks again with the same [from_date]. *)
Theorem exception_in_try_is_reported
    (n : nat) (vars : Locals) (st st1 : State) (e : exn) :
  try_body vars st = (st1, Raise e) ->
  is_Exception (class_of e) = true ->
  delivered_or_TelegramError (bot_send world (bot_calls st)) ->
  exists st2,
    loop (S n) vars st = loop n vars st2 /\
    notifications (trace st2) =
      (notifications (trace st) ++ ["Сбой в работе программы: " +:+ str_exn e])%list /\
    sleeps (trace st2) = (sleeps (trace st) ++ [RETRY_TIME])%list /\
    http_calls st2 = S (http_calls st).
Proof.
  intros Htry Hcls Hworld.
  destruct (failure_cycle vars st st1 e Htry Hcls Hworld)
    as (st2 & Hit & Hn & Hs & Hh & _).
  exists st2. split; [|auto].
  simpl. unfold bind. now rewrite Hit.
Qed.

Lemma try_body_http_error (vars : Locals) (st : State) (response : Response) :
  tokens_present ->
  requests_get world (http_calls st) = Ret response ->
  status_code response <> 200 ->
  exists st1,
    try_body vars st =
      (st1, Raise (Exc HTTPError ("Код ответа API: " +:+ str_int (status_code response)))).
Proof.
  intros (H1 & H2 & H3) Hget Hcode. apply Z.eqb_neq in Hcode.
  unfold try_body. unfold bind at 1. rewrite check_tokens_spec, H1, H2, H3.
  cbn [andb negb]. unfold bind at 1. unfold ret at 1.
  unfold bind at 1. unfold get_api_answer, requests_get_, now.
  destruct (current_timestamp vars =? 0)%Z; run_M; rewrite Hget, Hcode; simpl;
    eexists; reflexivity.
Qed.

(** X20. As long as the API answers every request with the same status other
    than 200 and Telegram delivers (or refuses with TelegramError), the loop
    goes on: [n] cycles make [n] requests, send [n] times the same failure
    message with the status code, and leave the locals as they were. *)
Theorem persistent_http_failure
    (n : nat) (vars : Locals) (st : State) (response : Response) :
  tokens_present ->
  (forall i, requests_get world i = Ret response) ->
  status_code response <> 200 ->
  (forall i, delivered_or_TelegramError (bot_send world i)) ->
  exists st',
    loop n vars st = (st', Ret vars) /\
    notifications (trace st') =
      (notifications (trace st) ++
       repeat ("Сбой в работе программы: Код ответа API: "
               +:+ str_int (status_code response)) n)%list /\
    http_calls st' = (n + http_calls st)%nat.
Proof.
  intros Htok Hget Hcode Hworld. revert st.
  induction n as [|n IH]; intros st.
  - exists st. simpl. rewrite app_nil_r. auto.
  - destruct (try_body_http_error vars st response Htok (Hget _) Hcode) as (st1 & Htry).
    destruct (failure_cycle vars st st1 _ Htry eq_refl (Hworld _))
      as (st2 & Hit & Hn & _ & Hh & _).
    destruct (IH st2) as (st' & Hloop & Hn' & Hh').
    exists st'. split; [|split].
    + simpl. unfold bind. now rewrite Hit.
    + rewrite Hn', Hn, <- app_assoc. reflexivity.
    + rewrite Hh', Hh. lia.
Qed.

(** X21. When the first answer of a cycle is a non-empty object that lacks
    [homeworks] or [current_date], the chat receives the failure message with
    the [repr] of the text of the KeyError (its [str] is the [repr] of its
    argument), not the bare text. *)
Theorem missing_key_notice_is_repr
    (vars : Locals) (st : State) (response : Response) (d : list (string * value)) :
  tokens_present ->
  requests_get world (http_calls st) = Ret response ->
  status_code response = 200 ->
  json response = Ret (VDict d) ->
  d <> [] ->
  dict_has "homeworks" d = false \/ dict_has "current_date" d = false ->
  delivered_or_TelegramError (bot_send world (bot_calls st)) ->
  let key := if dict_has "homeworks" d then "current_date" else "homeworks" in
  exists st',
    iteration vars st = (st', Ret vars) /\
    notifications (trace st') =
      (notifications (trace st) ++
       ["Сбой в работе программы: "
        +:+ repr_str ("Отсутствует ключ " +:+ quoted key +:+ " в ответе API")])%list.
Proof.
  intros (H1 & H2 & H3) Hget Hcode Hjson Hne Hmiss Hworld key.
  assert (Htry : exists st1,
            try_body vars st =
              (st1, Raise (Exc KeyError
                             ("Отсутствует ключ " +:+ quoted key +:+ " в ответе API")))).
  { unfold try_body. unfold bind at 1. rewrite check_tokens_spec, H1, H2, H3.
    cbn [andb negb]. unfold bind at 1. unfold ret at 1.
    destruct (get_api_answer_200 (current_timestamp vars) st response Hget Hcode)
      as (st0 & t & Hrun & _).
    unfold bind at 1. rewrite Hrun, Hjson.
    unfold bind at 1. rewrite check_response_cases. cbv zeta.
    assert (Ht : truthy (VDict d) = true) by (destruct d; [congruence|reflexivity]).
    rewrite Ht. cbn [negb]. subst key.
    destruct (dict_has "homeworks" d); cbn [negb]; [|eexists; reflexivity].
    destruct Hmiss as [Hmiss|Hmiss]; [discriminate|].
    rewrite Hmiss. eexists; reflexivity. }
  destruct Htry as (st1 & Htry).
  destruct (failure_cycle vars st st1 _ Htry eq_refl Hworld)
    as (st2 & Hit & Hn & _).
  exists st2. split; [exact Hit|exact Hn].
Qed.

Lemma parse_status_unknown
    (d : list (string * value)) (name : value) (s : string) (st : State) :
  dict_get "homework_name" d = Some name ->
  dict_get "status" d = Some (VStr s) ->
  HOMEWORK_STATUSES !! s = None ->
  exists st',
    parse_status (VDict d) st =
      (st', Raise (Fault (Unbound (if truthy name then "verdict" else "homework_name"))))
    /\ quiet st st'.
Proof.
  intros Hname Hstatus Hv.
  unfold parse_status, contains, getitem, dict_has. run_M.
  rewrite Hname, Hstatus. simpl. rewrite Hv. simpl.
  destruct (truthy name); simpl; eexists; (split; [reflexivity|]);
    repeat (eapply quiet_trans; [|apply quiet_log]); apply quiet_refl.
Qed.

(** X22. A cycle whose first answer is accepted with status [s], and whose
    second answer brings a first record with a non-empty status string that
    differs from [s] and is no key of [HOMEWORK_STATUSES], ends the loop: the
    UnboundLocalError of [parse_status] is raised in the [else] block, which
    no handler covers.  Nothing has been sent to the chat. *)
Theorem unknown_new_status_ends_loop
    (n : nat) (vars : Locals) (st : State) (response1 response2 : Response)
    (homework1 rest : list value) (d : list (string * value))
    (s name : value) (s' : string) :
  tokens_present ->
  requests_get world (http_calls st) = Ret response1 ->
  answers response1 homework1 ->
  status_of homework1 = Ret s ->
  requests_get world (S (http_calls st)) = Ret response2 ->
  answers response2 (VDict d :: rest) ->
  dict_get "homework_name" d = Some name ->
  dict_get "status" d = Some (VStr s') ->
  s' <> EmptyString ->
  HOMEWORK_STATUSES !! s' = None ->
  py_eq s (VStr s') = false ->
  exists st',
    loop (S n) vars st =
      (st', Raise (Fault (Unbound (if truthy name then "verdict" else "homework_name"))))
    /\ notifications (trace st') = notifications (trace st)
    /\ bot_calls st' = bot_calls st.
Proof.
  intros Htok Hget1 Hans1 Hs Hget2 Hans2 Hname Hstatus Hne Hv Hdiff.
  apply truthy_str in Hne.
  assert (Hit : exists st',
            iteration vars st =
              (st', Raise (Fault (Unbound (if truthy name then "verdict"
                                           else "homework_name"))))
            /\ notifications (trace st') = notifications (trace st)
            /\ bot_calls st' = bot_calls st).
  { unfold iteration, try_except.
    rewrite (try_body_ok vars st response1 homework1 s Htok Hget1 Hans1 Hs).
    unfold else_body. unfold bind at 1. unfold now at 1.
    erewrite fetch_ok; [| exact Hget2 | exact Hans2].
    unfold bind at 1. unfold compare_and_notify.
    rewrite first_status_run. cbn [status_of getitem]. rewrite Hstatus.
    unfold bind at 1. rewrite Hne.
    unfold bind at 1. cbn [status load ret]. rewrite Hdiff. cbn [negb].
    unfold bind at 1. cbn [first_item lift]. unfold bind at 1.
    match goal with
    | |- context [parse_status _ ?stx] =>
        destruct (parse_status_unknown d name s' stx Hname Hstatus Hv)
          as (st' & Hparse & Hq1 & Hq2 & _ & Hq4)
    end.
    rewrite Hparse. eexists. split; [reflexivity|].
    rewrite Hq2, Hq4. simpl. rewrite !notifications_app. simpl.
    rewrite !app_nil_r. auto. }
  destruct Hit as (st' & Hit & Hn & Hb).
  exists st'. split; [|auto]. apply loop_raise, Hit.
Qed.

Lemma else_body_timestamp (vars vars' : Locals) (st st' : State) :
  else_body vars st = (st', Ret vars') ->
  current_timestamp vars' = time_time world (clock_reads st).
Proof.
  unfold else_body. intros Hrun.
  apply bind_inv in Hrun as [(st1 & t & [= <- <-] & Hrun)|(e & [=] & _)].
  apply bind_inv in Hrun as [(st2 & response & _ & Hrun)|(e & _ & [=])].
  apply bind_inv in Hrun as [(st3 & homework & _ & Hrun)|(e & _ & [=])].
  apply bind_inv in Hrun as [(st4 & [] & _ & [= <- <-])|(e & _ & [=])].
  reflexivity.
Qed.

(** X23. A cycle that completes after an accepted first answer sets
    [current_timestamp] to the reading of the clock taken at the start of the
    [else] block, the first reading after those of the [try] block, and
    [status] to the status of the first answer. *)
Theorem completed_cycle_advances_timestamp
    (vars vars' : Locals) (st st' : State) (response : Response)
    (homework : list value) (s : value) :
  tokens_present ->
  requests_get world (http_calls st) = Ret response ->
  answers response homework ->
  status_of homework = Ret s ->
  iteration vars st = (st', Ret vars') ->
  vars' =
    {| current_timestamp :=
         time_time world (if (current_timestamp vars =? 0)%Z
                          then S (clock_reads st) else clock_reads st);
       status := Some s |}.
Proof.
  intros Htok Hget Hans Hs. unfold iteration, try_except.
  rewrite (try_body_ok vars st response homework s Htok Hget Hans Hs).
  intros Helse.
  pose proof (else_body_timestamp _ _ _ _ Helse) as Ht.
  pose proof (else_body_status _ _ _ _ Helse) as Hst.
  destruct vars' as [t' s0]. simpl in *. now subst.
Qed.

(** ** The recorded status *)

Lemma compare_and_notify_decision
    (s new_status : value) (homework : list value) (st : State) :
  status_of homework = Ret new_status ->
  compare_and_notify (Some s) homework st =
    if truthy new_status && negb (py_eq s new_status) then
      (first <- lift (first_item homework) ;;
       message <- parse_status first ;;
       send_message message) st
    else (emit (Log DEBUG "Статус работы не изменился") st, Ret tt).
Proof.
  intros Hnew. unfold compare_and_notify. rewrite first_status_run, Hnew.
  cbv beta iota delta [bind load ret].
  destruct (truthy new_status); [destruct (py_eq s new_status)|]; reflexivity.
Qed.

Lemma two_answers_cycle
    (vars : Locals) (st : State) (response1 response2 : Response)
    (homework1 homework2 : list value) (s : value) :
  tokens_present ->
  requests_get world (http_calls st) = Ret response1 ->
  answers response1 homework1 ->
  status_of homework1 = Ret s ->
  requests_get world (S (http_calls st)) = Ret response2 ->
  answers response2 homework2 ->
  let st1 := emit (Sleep RETRY_TIME) (fetched (current_timestamp vars) st) in
  let t2 := time_time world (clock_reads st1) in
  iteration vars st =
    (compare_and_notify (Some s) homework2 ;;
     ret {| current_timestamp := t2; status := Some s |})
      (fetched t2 (ticked st1)).
Proof.
  intros Htok Hget1 Hans1 Hs Hget2 Hans2 st1 t2.
  unfold iteration, try_except.
  rewrite (try_body_ok vars st response1 homework1 s Htok Hget1 Hans1 Hs).
  unfold else_body. unfold bind at 1. unfold now at 1.
  erewrite fetch_ok; [| exact Hget2 | exact Hans2].
  reflexivity.
Qed.

(** C2, as the code has it.  The value that [status] holds when a cycle
    starts is never read: two cycles that differ in it only do the same, and
    return the same locals unless the cycle failed in the [try] block and left
    them alone; so the variable needs no value when the loop starts.  In a
    cycle whose two requests are answered with accepted payloads, the [try]
    block gives it the status [s] of the first homework of the first payload
    (None for an empty list), and the [else] block compares the status
    [new_status] found in the second payload against [s]: when [new_status]
    is falsy or equal to [s], the cycle only logs the no-change message; when
    it is truthy and differs, the cycle formats the first record of the second
    payload and sends it.  In both cases a cycle that completes ends with
    [status = s], not with [new_status]. *)
Theorem status_is_reassigned_each_cycle :
  (forall (t : Z) (x y : option value) (st : State),
     fst (iteration {| current_timestamp := t; status := x |} st) =
     fst (iteration {| current_timestamp := t; status := y |} st) /\
     match snd (iteration {| current_timestamp := t; status := x |} st),
           snd (iteration {| current_timestamp := t; status := y |} st) with
     | Ret v, Ret v' =>
         v = v' \/
         (v = {| current_timestamp := t; status := x |} /\
          v' = {| current_timestamp := t; status := y |})
     | Raise e, Raise e' => e = e'
     | _, _ => False
     end) /\
  (forall (vars : Locals) (st : State) (response1 response2 : Response)
          (homework1 homework2 : list value) (s new_status : value),
     tokens_present ->
     requests_get world (http_calls st) = Ret response1 ->
     answers response1 homework1 ->
     status_of homework1 = Ret s ->
     requests_get world (S (http_calls st)) = Ret response2 ->
     answers response2 homework2 ->
     status_of homework2 = Ret new_status ->
     let st1 := emit (Sleep RETRY_TIME) (fetched (current_timestamp vars) st) in
     let t2 := time_time world (clock_reads st1) in
     let st2 := fetched t2 (ticked st1) in
     let vars' := {| current_timestamp := t2; status := Some s |} in
     (truthy new_status = false \/ py_eq s new_status = true ->
      iteration vars st =
        (emit (Log DEBUG "Статус работы не изменился") st2, Ret vars')) /\
     (truthy new_status = true -> py_eq s new_status = false ->
      iteration vars st =
        (first <- lift (first_item homework2) ;;
         message <- parse_status first ;;
         send_message message ;;
         ret vars') st2) /\
     (forall st' vars'',
        iteration vars st = (st', Ret vars'') -> vars'' = vars')).
Proof.
  split.
  - intros t x y st. unfold iteration, try_except.
    change (try_body {| current_timestamp := t; status := y |})
      with (try_body {| current_timestamp := t; status := x |}).
    cbn [current_timestamp].
    destruct (try_body {| current_timestamp := t; status := x |} st)
      as [st1 [s|e]].
    + destruct (else_body {| current_timestamp := t; status := Some s |} st1)
        as [st2 [v|e]]; simpl; auto.
    + destruct (is_Exception (class_of e)); [|simpl; auto].
      unfold except_body, bind, log, sleep, ret.
      match goal with
      | |- context [send_message ?m ?stx] => destruct (send_message m stx) as [st2 [[]|e']]
      end; simpl; auto.
  - intros vars st response1 response2 homework1 homework2 s new_status
      Htok Hget1 Hans1 Hs Hget2 Hans2 Hnew st1 t2 st2 vars'.
    pose proof (two_answers_cycle vars st response1 response2 homework1 homework2 s
                  Htok Hget1 Hans1 Hs Hget2 Hans2) as Hit.
    cbv zeta in Hit. fold st1 t2 st2 vars' in Hit.
    unfold bind at 1 in Hit.
    rewrite (compare_and_notify_decision s new_status homework2 st2 Hnew) in Hit.
    split; [|split].
    + intros Hsame. rewrite Hit.
      destruct Hsame as [Hf|Heq]; [rewrite Hf|rewrite Heq, andb_false_r]; reflexivity.
    + intros Ht Hne. rewrite Hit, Ht, Hne. cbn [andb negb].
      unfold bind.
      destruct (lift (first_item homework2) st2) as [st3 [first|e]]; [|reflexivity].
      destruct (parse_status first st3) as [st4 [message|e]]; [|reflexivity].
      destruct (send_message message st4) as [st5 [[]|e]]; reflexivity.
    + intros st' vars''. rewrite Hit.
      destruct (truthy new_status && negb (py_eq s new_status)).
      * unfold bind.
        destruct (lift (first_item homework2) st2) as [st3 [first|e]]; [|discriminate].
        destruct (parse_status first st3) as [st4 [message|e]]; [|discriminate].
        destruct (send_message message st4) as [st5 [[]|e]]; [|discriminate].
        unfold ret. now intros [= _ <-].
      * unfold ret. now intros [= _ <-].
Qed.

End Module_.

(** * Runs in concrete worlds *)

(** ** The formatter *)

(** The record [{homework_name: X, status: approved}]. *)
Lemma parse_status_approved_X :
  parse_status repr_plain (homework_X "approved") start = (start, Ret approved_X).
Proof.
  apply (parse_status_well_formed repr_plain
           [("homework_name", VStr "X"); ("status", VStr "approved")]
           "X" "approved"
           "Работа проверена: ревьюеру всё понравилось. Ура!" start).
  - reflexivity.
  - discriminate.
  - reflexivity.
  - reflexivity.
Defined.

(** A status outside the catalogue: one error, then the unassigned verdict. *)
Lemma parse_status_unknown_status :
  parse_status repr_plain (homework_X "postponed") start =
    (emits [Log ERROR "Неизвестный статус проекта"] start,
     Raise (Fault (Unbound "verdict"))).
Proof.
  apply (parse_status_unassigned repr_plain
           [("homework_name", VStr "X"); ("status", VStr "postponed")]
           (VStr "X") (VStr "postponed") false start).
  - reflexivity.
  - reflexivity.
  - reflexivity.
  - right. reflexivity.
Defined.

(** ** The validator *)

(** C5 as stated fails on the empty object: both keys are absent, and the
    error is the one for an empty answer, not KeyError. *)
Lemma check_response_empty_object :
  dict_has "homeworks" [] = false /\
  dict_has "current_date" [] = false /\
  check_response (VDict []) start =
    (emits [Log ERROR "Получен пустой ответ при обращении к API"] start,
     Raise (Exc Exception "Получен пустой ответ при обращении к API")).
Proof. repeat split. Qed.

(** An object with [current_date] only: the error names [homeworks]. *)
Lemma check_response_without_homeworks :
  check_response (VDict [("current_date", VInt 1660000000)]) start =
    (emits [Log ERROR ("Отсутствует ключ " +:+ quoted "homeworks" +:+ " в ответе API")]
       start,
     Raise (Exc KeyError ("Отсутствует ключ " +:+ quoted "homeworks" +:+ " в ответе API"))).
Proof.
  apply (check_response_missing_key [("current_date", VInt 1660000000)] start).
  - discriminate.
  - left. reflexivity.
Defined.

(** ** The API client *)

(** Status 404: the message of the HTTPError, and of the log, ends in 404. *)
Lemma get_api_answer_404 :
  exists st' from_date,
    get_api_answer practicum_token (world_of [] (not_json 404) delivers) 1000 start =
      (st', Raise (Exc HTTPError "Код ответа API: 404")) /\
    trace st' = [Get ENDPOINT "OAuth y0_AgAAAA" from_date;
                 Log ERROR "Код ответа API: 404"].
Proof.
  apply (get_api_answer_not_200 practicum_token (world_of [] (not_json 404) delivers)
           1000 start {| status_code := 404;
                         json := Raise (Exc JSONDecodeError
                                   "Expecting value: line 1 column 1 (char 0)") |}).
  - reflexivity.
  - discriminate.
Defined.

(** C10, on the code.  A 200 answer whose body decodes to the empty object
    is returned to the caller, and a 200 answer with an empty body fails in
    [response.json()]: in neither case is the error for an empty answer
    logged or raised by [get_api_answer]. *)
Theorem get_api_answer_empty_body_not_reported :
  get_api_answer practicum_token
    (world_of [Ret {| status_code := 200; json := Ret (VDict []) |}]
       (not_json 500) delivers) 1000 start =
    ({| clock_reads := 0; http_calls := 1; bot_calls := 0;
        trace := [Get ENDPOINT "OAuth y0_AgAAAA" 1000] |},
     Ret (VDict [])) /\
  get_api_answer practicum_token (world_of [] (not_json 200) delivers) 1000 start =
    ({| clock_reads := 0; http_calls := 1; bot_calls := 0;
        trace := [Get ENDPOINT "OAuth y0_AgAAAA" 1000] |},
     Raise (Exc JSONDecodeError "Expecting value: line 1 column 1 (char 0)")).
Proof. split; reflexivity. Qed.

(** ** The notifier *)

(** A send that times out: the error is logged, nothing is raised. *)
Lemma send_message_timed_out :
  exists st',
    send_message repr_plain fault_text_cpython telegram_chat_id
      (world_of [] (not_json 500) (fun _ => Raise (Exc NetworkError "Timed out")))
      "text" start = (st', Ret tt) /\
    trace st' =
      [SendMessage telegram_chat_id "text";
       Log ERROR "Бот не смог отправить сообщение text. Ошибка Timed out"].
Proof.
  apply (send_message_never_raises repr_plain fault_text_cpython telegram_chat_id
           (world_of [] (not_json 500) (fun _ => Raise (Exc NetworkError "Timed out")))
           "text" start).
  reflexivity.
Defined.

(** ** The loop *)

(** Without the API token [main] ends in its first pass through the loop,
    whatever the API would say. *)
Lemma missing_api_token_exits :
  main repr_plain fault_text_cpython None telegram_token telegram_chat_id
    (world_of [] (answer []) delivers) 1 start =
    ({| clock_reads := 1; http_calls := 0; bot_calls := 0;
        trace := [Log CRITICAL "Отсутствует обязательная переменная окружения"] |},
     Raise (Exc SystemExit EmptyString)).
Proof.
  apply (missing_api_token_or_chat_id_exits repr_plain fault_text_cpython
           None telegram_token telegram_chat_id
           (world_of [] (answer []) delivers) 0 start "5000000000:AAF").
  - reflexivity.
  - reflexivity.
  - left. reflexivity.
Defined.

(** C7, on the code.  When the bot token is not set, [telegram.Bot] raises
    at line 156, before the loop: [main] ends with that TypeError in the
    state it started in, so [check_tokens] has not run, no critical error has
    been logged and [sys.exit] has not been called.  This holds whatever the
    other two values and the outside world are. *)
Theorem missing_bot_token_raises_before_loop
    (repr_str : string -> string) (fault_text : fault -> string)
    (PRACTICUM_TOKEN TELEGRAM_CHAT_ID : option string) (world : World)
    (n : nat) (st : State) :
  main repr_str fault_text PRACTICUM_TOKEN None TELEGRAM_CHAT_ID world n st =
    (st, Raise (Exc TypeError "'NoneType' object is not iterable")).
Proof. unfold main, Bot, bind, raise. reflexivity. Qed.

(** After a cycle that compared against an empty first answer, the variable
    holds None although the approved status has just been announced; the
    next cycle announces the same status again. *)
Lemma status_not_carried_over :
  let w := world_of [answer []; answer [homework_X "approved"];
                     answer []; answer [homework_X "approved"]]
             (answer []) delivers in
  let run n := main repr_plain fault_text_cpython practicum_token telegram_token
                 telegram_chat_id w n start in
  snd (run 1%nat) = Ret {| current_timestamp := 1001; status := Some VNone |} /\
  notifications (trace (fst (run 1%nat))) = [approved_X] /\
  notifications (trace (fst (run 2%nat))) = [approved_X; approved_X].
Proof. repeat split. Qed.

(** The variable held approved; the first answer of the cycle is empty, the
    second one brings an approved homework: the comparison is made against
    None, the approved status is announced, and the cycle ends with None. *)
Lemma status_reassigned_from_first_answer :
  let w := world_of [answer []] (answer [homework_X "approved"]) delivers in
  let run := iteration repr_plain fault_text_cpython practicum_token telegram_token
               telegram_chat_id w
               {| current_timestamp := 1000; status := Some (VStr "approved") |}
               start in
  snd run = Ret {| current_timestamp := 1000; status := Some VNone |} /\
  notifications (trace (fst run)) = [approved_X].
Proof.
  intros w run. subst run.
  rewrite (proj1 (proj2 (proj2 (status_is_reassigned_each_cycle repr_plain
             fault_text_cpython practicum_token telegram_token telegram_chat_id w)
           {| current_timestamp := 1000; status := Some (VStr "approved") |} start
           {| status_code := 200;
              json := Ret (VDict [("homeworks", VList []);
                                  ("current_date", VInt 1660000000)]) |}
           {| status_code := 200;
              json := Ret (VDict [("homeworks", VList [homework_X "approved"]);
                                  ("current_date", VInt 1660000000)]) |}
           [] [homework_X "approved"] VNone (VStr "approved")
           ltac:(repeat split) eq_refl
           ltac:(split; [reflexivity|]; eexists; repeat split) eq_refl eq_refl
           ltac:(split; [reflexivity|]; eexists; repeat split) eq_refl))
           eq_refl eq_refl).
  split; reflexivity.
Defined.

(** The same answer at both requests of a cycle: two requests, one sleep,
    the no-change message, nothing sent. *)
Lemma same_answer_twice_sends_nothing :
  exists st' t1 t2 t3,
    iteration repr_plain fault_text_cpython practicum_token telegram_token
      telegram_chat_id (world_of [] (answer [homework_X "reviewing"]) delivers)
      {| current_timestamp := 1000; status := None |} start =
      (st', Ret {| current_timestamp := t3; status := Some (VStr "reviewing") |}) /\
    trace st' =
      [Get ENDPOINT "OAuth y0_AgAAAA" t1; Sleep RETRY_TIME;
       Get ENDPOINT "OAuth y0_AgAAAA" t2;
       Log DEBUG "Статус работы не изменился"] /\
    bot_calls st' = 0%nat.
Proof.
  apply (proj1 (proj2 (unchanged_status_not_notified repr_plain fault_text_cpython
                  practicum_token telegram_token telegram_chat_id
                  (world_of [] (answer [homework_X "reviewing"]) delivers)))
           {| current_timestamp := 1000; status := None |} start
           {| status_code := 200;
              json := Ret (VDict [("homeworks", VList [homework_X "reviewing"]);
                                  ("current_date", VInt 1660000000)]) |}
           [homework_X "reviewing"] (VStr "reviewing")).
  - repeat split.
  - reflexivity.
  - reflexivity.
  - split; [reflexivity|]. eexists. repeat split.
  - simpl. repeat split. apply (bool_decide_unpack _). reflexivity.
  - reflexivity.
Defined.

(** C1, on the code.  The first request of the cycle is answered, the
    second one, made in the [else] block, gets status 500: the HTTPError is
    logged by [get_api_answer] and leaves [main]; the handler of the loop
    does not run (no failure message, no sleep), and the process ends. *)
Theorem second_request_failure_ends_process (n : nat) :
  main repr_plain fault_text_cpython practicum_token telegram_token telegram_chat_id
    (world_of [answer []] (not_json 500) delivers) (S n) start =
    ({| clock_reads := 2; http_calls := 2; bot_calls := 0;
        trace := [Get ENDPOINT "OAuth y0_AgAAAA" 1000; Sleep RETRY_TIME;
                  Get ENDPOINT "OAuth y0_AgAAAA" 1001;
                  Log ERROR "Код ответа API: 500"] |},
     Raise (Exc HTTPError "Код ответа API: 500")).
Proof.
  unfold main, Bot, bind, lift, now.
  cbn [telegram_token world_of telegram_Bot start clock_reads http_calls
       bot_calls trace].
  apply loop_raise. reflexivity.
Qed.

(** ** Further runs: the API client *)

Lemma get_api_answer_success_example :
  let w := world_of [answer []] (not_json 500) delivers in
  get_api_answer practicum_token w 1000 start =
    (fetched practicum_token w 1000 start,
     Ret (VDict [("homeworks", VList []); ("current_date", VInt 1660000000)])).
Proof.
  intros w.
  apply (get_api_answer_success practicum_token w 1000 start
           {| status_code := 200;
              json := Ret (VDict [("homeworks", VList []);
                                  ("current_date", VInt 1660000000)]) |}).
  - reflexivity.
  - reflexivity.
Defined.

Lemma get_api_answer_no_connection :
  let w := world_of [] (Raise (Exc ConnectionError "Connection refused")) delivers in
  get_api_answer practicum_token w 1000 start =
    (fetched practicum_token w 1000 start,
     Raise (Exc ConnectionError "Connection refused")).
Proof.
  intros w.
  apply (get_api_answer_transport_error practicum_token w 1000 start).
  reflexivity.
Defined.

(** ** Further runs: the validator *)

Lemma check_response_empty_list :
  check_response (VList []) start =
    (emits [Log ERROR "Получен пустой ответ при обращении к API"] start,
     Raise (Exc Exception "Получен пустой ответ при обращении к API")).
Proof. apply (check_response_falsy (VList []) start). reflexivity. Defined.

Lemma check_response_list_payload :
  check_response (VList [homework_X "approved"]) start =
    (emits [Log ERROR "Получен некорретный ответ при обрщаении к API"] start,
     Raise (Exc TypeError "Получен некорретный ответ при обрщаении к API")).
Proof.
  apply (check_response_not_object (VList [homework_X "approved"]) start).
  - reflexivity.
  - discriminate.
Defined.

Lemma check_response_homeworks_is_object :
  check_response
    (VDict [("homeworks", homework_X "approved"); ("current_date", VInt 1660000000)])
    start =
    (emits [Log ERROR ("Объект по ключу " +:+ quoted "homeworks"
                       +:+ " не является списком")] start,
     Raise (Exc TypeError ("Объект по ключу " +:+ quoted "homeworks"
                           +:+ " не является списком"))).
Proof.
  apply (check_response_homeworks_not_list
           [("homeworks", homework_X "approved"); ("current_date", VInt 1660000000)]
           (homework_X "approved") start).
  - reflexivity.
  - discriminate.
  - reflexivity.
Defined.

Lemma check_response_number_is_logged :
  check_response (VInt 7) start =
    (emits [Log ERROR "Получен некорретный ответ при обрщаении к API"] start,
     Raise (Exc TypeError "Получен некорретный ответ при обрщаении к API")) /\
  exists c m,
    Exc TypeError "Получен некорретный ответ при обрщаении к API" = Exc c m /\
    emits [Log ERROR "Получен некорретный ответ при обрщаении к API"] start =
      emits [Log ERROR m] start /\
    (c = Exception \/ c = TypeError \/ c = KeyError).
Proof.
  split; [reflexivity|].
  apply (check_response_failure_is_logged (VInt 7) start
           (emits [Log ERROR "Получен некорретный ответ при обрщаении к API"] start)
           (Exc TypeError "Получен некорретный ответ при обрщаении к API")).
  reflexivity.
Defined.

(** ** Further runs: the formatter *)

Lemma parse_status_without_name :
  parse_status repr_plain (VDict [("status", VStr "approved")]) start =
    (emits [Log ERROR ("Отсутствует ключ " +:+ quoted "homework_name"
                       +:+ " в объекте " +:+ quoted "homework")] start,
     Raise (Exc KeyError ("Отсутствует ключ " +:+ quoted "homework_name"
                          +:+ " в объекте " +:+ quoted "homework"))).
Proof.
  apply (parse_status_missing_key repr_plain [("status", VStr "approved")] start).
  left. reflexivity.
Defined.

Lemma parse_status_of_a_string :
  parse_status repr_plain (VStr "approved") start =
    (emits [Log ERROR ("Отсутствует ключ " +:+ quoted "homework_name"
                       +:+ " в объекте " +:+ quoted "homework")] start,
     Raise (Exc KeyError ("Отсутствует ключ " +:+ quoted "homework_name"
                          +:+ " в объекте " +:+ quoted "homework"))).
Proof.
  apply (parse_status_non_object_raises repr_plain (VStr "approved") start).
  discriminate.
Defined.

Lemma parse_status_list_status :
  parse_status repr_plain
    (VDict [("homework_name", VStr "X"); ("status", VList [VStr "approved"])]) start =
    (emits [] start, Raise (Fault (Unhashable list_t))).
Proof.
  apply (parse_status_unhashable_status repr_plain
           [("homework_name", VStr "X"); ("status", VList [VStr "approved"])]
           (VStr "X") (VList [VStr "approved"]) start).
  - reflexivity.
  - reflexivity.
  - left. reflexivity.
Defined.

(** ** Further runs: the notifier *)

Lemma send_message_connection_aborted :
  send_message repr_plain fault_text_cpython telegram_chat_id
    (world_of [] (not_json 500)
       (fun _ => Raise (Exc ConnectionError "Connection aborted")))
    "text" start =
    ({| clock_reads := 0; http_calls := 0; bot_calls := 1;
        trace := [SendMessage telegram_chat_id "text"] |},
     Raise (Exc ConnectionError "Connection aborted")).
Proof.
  apply (send_message_other_exception_propagates repr_plain fault_text_cpython
           telegram_chat_id
           (world_of [] (not_json 500)
              (fun _ => Raise (Exc ConnectionError "Connection aborted")))
           "text" start (Exc ConnectionError "Connection aborted")).
  - reflexivity.
  - reflexivity.
Defined.

(** ** Further runs: the loop *)

Definition no_locals : Locals := {| current_timestamp := 1000; status := None |}.

(** A cycle that announces a change, then a cycle that fails: two sleeps,
    three requests. *)
Lemma two_cycles_two_sleeps :
  let run := loop repr_plain fault_text_cpython practicum_token telegram_token
               telegram_chat_id
               (world_of [answer [homework_X "reviewing"]; answer [homework_X "approved"]]
                  (not_json 503) delivers) 2 no_locals start in
  run = (fst run, Ret {| current_timestamp := 1000;
                         status := Some (VStr "reviewing") |}) /\
  sleeps (trace (fst run)) = [600; 600] /\
  (2 <= http_calls (fst run) <= 4)%nat.
Proof.
  intros run. split; [reflexivity|].
  apply (completed_cycles_sleep_once_each repr_plain fault_text_cpython
           practicum_token telegram_token telegram_chat_id
           (world_of [answer [homework_X "reviewing"]; answer [homework_X "approved"]]
              (not_json 503) delivers)
           2 no_locals
           {| current_timestamp := 1000; status := Some (VStr "reviewing") |}
           start (fst run)).
  reflexivity.
Defined.

Lemma reviewing_then_approved_is_announced :
  exists st' t,
    iteration repr_plain fault_text_cpython practicum_token telegram_token
      telegram_chat_id
      (world_of [answer [homework_X "reviewing"]; answer [homework_X "approved"]]
         (not_json 503) delivers) no_locals start =
      (st', Ret {| current_timestamp := t; status := Some (VStr "reviewing") |}) /\
    notifications (trace st') = [approved_X] /\
    bot_calls st' = 1%nat /\ http_calls st' = 2%nat.
Proof.
  apply (changed_status_is_notified_once repr_plain fault_text_cpython
           practicum_token telegram_token telegram_chat_id
           (world_of [answer [homework_X "reviewing"]; answer [homework_X "approved"]]
              (not_json 503) delivers) no_locals start
           {| status_code := 200;
              json := Ret (VDict [("homeworks", VList [homework_X "reviewing"]);
                                  ("current_date", VInt 1660000000)]) |}
           {| status_code := 200;
              json := Ret (VDict [("homeworks", VList [homework_X "approved"]);
                                  ("current_date", VInt 1660000000)]) |}
           [homework_X "reviewing"] []
           [("homework_name", VStr "X"); ("status", VStr "approved")]
           (VStr "reviewing") (VStr "X") "approved"
           "Работа проверена: ревьюеру всё понравилось. Ура!").
  - repeat split.
  - reflexivity.
  - split; [reflexivity|]. eexists. repeat split.
  - reflexivity.
  - reflexivity.
  - split; [reflexivity|]. eexists. repeat split.
  - reflexivity.
  - reflexivity.
  - reflexivity.
  - reflexivity.
  - reflexivity.
  - exact I.
Defined.

Lemma empty_list_after_approved_is_silent :
  compare_and_notify repr_plain fault_text_cpython telegram_chat_id
    (world_of [] (answer []) delivers) (Some (VStr "approved")) [] start =
    (emit (Log DEBUG "Статус работы не изменился") start, Ret tt).
Proof.
  apply (falsy_new_status_not_notified repr_plain fault_text_cpython telegram_chat_id
           (world_of [] (answer []) delivers) (Some (VStr "approved")) [] VNone start).
  - reflexivity.
  - reflexivity.
Defined.

(** A 200 answer whose body is not JSON: the decoding error is reported. *)
Lemma undecodable_answer_is_reported :
  let w := world_of [] (not_json 200) delivers in
  exists st2,
    loop repr_plain fault_text_cpython practicum_token telegram_token
      telegram_chat_id w 1 no_locals start =
    loop repr_plain fault_text_cpython practicum_token telegram_token
      telegram_chat_id w 0 no_locals st2 /\
    notifications (trace st2) =
      ["Сбой в работе программы: Expecting value: line 1 column 1 (char 0)"] /\
    sleeps (trace st2) = [600] /\
    http_calls st2 = 1%nat.
Proof.
  intros w.
  apply (exception_in_try_is_reported repr_plain fault_text_cpython
           practicum_token telegram_token telegram_chat_id w 0 no_locals start
           (fetched practicum_token w 1000 start)
           (Exc JSONDecodeError "Expecting value: line 1 column 1 (char 0)")).
  - reflexivity.
  - reflexivity.
  - exact I.
Defined.

Lemma three_cycles_of_503 :
  let w := world_of [] (not_json 503) delivers in
  exists st',
    loop repr_plain fault_text_cpython practicum_token telegram_token
      telegram_chat_id w 3 no_locals start = (st', Ret no_locals) /\
    notifications (trace st') =
      ["Сбой в работе программы: Код ответа API: 503";
       "Сбой в работе программы: Код ответа API: 503";
       "Сбой в работе программы: Код ответа API: 503"] /\
    http_calls st' = 3%nat.
Proof.
  intros w.
  apply (persistent_http_failure repr_plain fault_text_cpython
           practicum_token telegram_token telegram_chat_id w 3 no_locals start
           {| status_code := 503;
              json := Raise (Exc JSONDecodeError
                               "Expecting value: line 1 column 1 (char 0)") |}).
  - repeat split.
  - intros i. destruct i; reflexivity.
  - discriminate.
  - intros i. exact I.
Defined.

Lemma answer_without_homeworks_is_reported :
  let w := world_of [] (Ret {| status_code := 200;
                                json := Ret (VDict [("current_date", VInt 1660000000)]) |})
             delivers in
  exists st',
    iteration repr_plain fault_text_cpython practicum_token telegram_token
      telegram_chat_id w no_locals start = (st', Ret no_locals) /\
    notifications (trace st') =
      ["Сбой в работе программы: '" +:+ "Отсутствует ключ " +:+ quoted "homeworks"
       +:+ " в ответе API" +:+ "'"].
Proof.
  intros w.
  apply (missing_key_notice_is_repr repr_plain fault_text_cpython
           practicum_token telegram_token telegram_chat_id w no_locals start
           {| status_code := 200;
              json := Ret (VDict [("current_date", VInt 1660000000)]) |}
           [("current_date", VInt 1660000000)]).
  - repeat split.
  - reflexivity.
  - reflexivity.
  - reflexivity.
  - discriminate.
  - left. reflexivity.
  - exact I.
Defined.

Lemma postponed_status_ends_loop :
  exists st',
    loop repr_plain fault_text_cpython practicum_token telegram_token
      telegram_chat_id
      (world_of [answer [homework_X "reviewing"]; answer [homework_X "postponed"]]
         (answer []) delivers) 1 no_locals start =
      (st', Raise (Fault (Unbound "verdict"))) /\
    notifications (trace st') = [] /\
    bot_calls st' = 0%nat.
Proof.
  apply (unknown_new_status_ends_loop repr_plain fault_text_cpython
           practicum_token telegram_token telegram_chat_id
           (world_of [answer [homework_X "reviewing"]; answer [homework_X "postponed"]]
              (answer []) delivers) 0 no_locals start
           {| status_code := 200;
              json := Ret (VDict [("homeworks", VList [homework_X "reviewing"]);
                                  ("current_date", VInt 1660000000)]) |}
           {| status_code := 200;
              json := Ret (VDict [("homeworks", VList [homework_X "postponed"]);
                                  ("current_date", VInt 1660000000)]) |}
           [homework_X "reviewing"] []
           [("homework_name", VStr "X"); ("status", VStr "postponed")]
           (VStr "reviewing") (VStr "X") "postponed").
  - repeat split.
  - reflexivity.
  - split; [reflexivity|]. eexists. repeat split.
  - reflexivity.
  - reflexivity.
  - split; [reflexivity|]. eexists. repeat split.
  - reflexivity.
  - reflexivity.
  - discriminate.
  - reflexivity.
  - reflexivity.
Defined.

Lemma timestamp_after_quiet_cycle :
  let w := world_of [] (answer [homework_X "reviewing"]) delivers in
  let run := iteration repr_plain fault_text_cpython practicum_token telegram_token
               telegram_chat_id w
               {| current_timestamp := 0; status := None |} start in
  run = (fst run, Ret {| current_timestamp := 1001;
                         status := Some (VStr "reviewing") |}) /\
  {| current_timestamp := 1001; status := Some (VStr "reviewing") |} =
  {| current_timestamp := time_time w 1; status := Some (VStr "reviewing") |}.
Proof.
  intros w run. split; [reflexivity|].
  apply (completed_cycle_advances_timestamp repr_plain fault_text_cpython
           practicum_token telegram_token telegram_chat_id w
           {| current_timestamp := 0; status := None |}
           {| current_timestamp := 1001; status := Some (VStr "reviewing") |}
           start (fst run)
           {| status_code := 200;
              json := Ret (VDict [("homeworks", VList [homework_X "reviewing"]);
                                  ("current_date", VInt 1660000000)]) |}
           [homework_X "reviewing"] (VStr "reviewing")).
  - repeat split.
  - reflexivity.
  - split; [reflexivity|]. eexists. repeat split.
  - reflexivity.
  - reflexivity.
Defined.
